(** * Bank adapters and the orchestration service of the bank-sync server

    A shallow embedding of the bank adapters (NORDEA_NDEADKKK,
    BERLINER_SPARKASSE_BELADEBEXXX, ENTERCARD_SWEDNOKK, BELFIUS_GKCCBEBB) and
    of the service that talks to the aggregation API, with the properties the
    specification states about them.

    JavaScript objects of a fixed shape are records whose optional fields are
    [option]s ([None] is a field that is absent, read as [undefined]); an
    exception is an explicit [Throw]; the client of the aggregation API is a
    record of functions over an abstract world, threaded through the service
    together with the cached token. *)

From Stdlib Require Import ZArith Ascii String.
From stdpp Require Import base option list strings pretty gmap.

Local Open Scope Z_scope.
Local Open Scope string_scope.

(** ** Outcomes of a call: a returned value or a thrown exception *)

Inductive outcome (E A : Type) : Type :=
  | Return (a : A)
  | Throw (e : E).
Arguments Return {E A} a.
Arguments Throw {E A} e.

#[global] Instance outcome_ret {E} : MRet (outcome E) := λ A a, Return a.
#[global] Instance outcome_bind {E} : MBind (outcome E) := λ A B f m,
  match m with
  | Return a => f a
  | Throw e => Throw e
  end.

(** Exceptions raised by the language itself. *)
Inductive js_error : Type :=
  | TypeError (msg : string)
  | ReferenceError (msg : string)
  | RangeError (msg : string).

(** Reading property [prop] of a value that is [undefined]. *)
Definition cannot_read (prop : string) : js_error :=
  TypeError ("Cannot read properties of undefined (reading '" ++ prop ++ "')").

(** Evaluating an identifier that no scope declares. *)
Definition not_defined (ident : string) : js_error :=
  ReferenceError (ident ++ " is not defined").

(** ** Numbers

    The amounts the adapters compute with are results of [Math.round]:
    doubles whose value is an integer, the two zeros, the infinities, or
    [NaN]. [Num z] stands for the double of value [z] (the positive zero for
    0). The integers that are values of doubles are the ones [round_double]
    leaves as they are, every integer up to 2^53 in size among them. *)

Inductive number : Type :=
  | Num (z : Z)
  | NegZero
  | Infinity (negative : bool)
  | NaN.

(** The double nearest to an integer, the one with the even significand when
    two are as near, an infinity past the largest double: what the arithmetic
    of the language makes of an exact result. *)
Definition round_double (z : Z) : number :=
  let magnitude := Z.abs z in
  if (magnitude <? 2 ^ 53)%Z then Num z
  else
    let shift := Z.log2 magnitude - 52 in
    let kept := Z.shiftr magnitude shift in
    let dropped := magnitude mod 2 ^ shift in
    let half := 2 ^ (shift - 1) in
    let significand :=
      if (half <? dropped)%Z || ((dropped =? half)%Z && Z.odd kept) then kept + 1 else kept in
    let rounded := significand * 2 ^ shift in
    if (2 ^ 1024 <=? rounded)%Z then Infinity (z <? 0)%Z else Num (Z.sgn z * rounded).

(** [a - b] on these doubles. *)
Definition nsub (a b : number) : number :=
  match a, b with
  | NaN, _ | _, NaN => NaN
  | Infinity s, Infinity s' => if Bool.eqb s s' then NaN else Infinity s
  | Infinity s, _ => Infinity s
  | _, Infinity s => Infinity (negb s)
  | NegZero, NegZero => Num 0
  | NegZero, Num y => if (y =? 0)%Z then NegZero else round_double (- y)
  | Num x, NegZero => round_double x
  | Num x, Num y => round_double (x - y)
  end.

(** ** Strings and optional string fields *)

(** [!!s] of the language: the empty string is falsy. *)
Definition nonempty (s : string) : bool :=
  match s with
  | EmptyString => false
  | String _ _ => true
  end.

(** Truthiness of a field that is absent or holds a string. *)
Definition truthy (v : option string) : bool :=
  match v with
  | Some s => nonempty s
  | None => false
  end.

(** [a || b]: the left operand when it is truthy, else the right one. *)
Definition js_or (a b : option string) : option string :=
  if truthy a then a else b.

(** String conversion, as [+] with a string operand applies it. *)
Definition to_string (v : option string) : string :=
  match v with
  | Some s => s
  | None => "undefined"
  end.

(** [s.startsWith(p)] *)
Definition startsWith (s p : string) : bool := String.prefix p s.

(** [s.substring(n)] *)
Definition substring_from (n : nat) (s : string) : string :=
  String.substring n (String.length s - n) s.

(** [s.slice(-n)]: the last [n] characters, the whole string when it is
    shorter. *)
Definition slice_last (n : nat) (s : string) : string :=
  substring_from (String.length s - n) s.

(** [l.join(sep)] on an array of strings. *)
Definition join (sep : string) (l : list string) : string := String.concat sep l.

(** An element of an array being joined: [undefined] contributes the empty
    string. *)
Definition join_item (v : option string) : string := default "" v.

(** ** Data model *)

Record Amount : Type := {
  amount : string;
  currency : string;
}.

Record Balance : Type := {
  balanceType : string;
  balanceAmount : Amount;
}.

Record Transaction : Type := {
  transactionId : option string;
  internalTransactionId : option string;
  transactionAmount : Amount;
  bookingDate : option string;
  bookingDateTime : option string;
  valueDate : option string;
  valueDateTime : option string;
  remittanceInformationUnstructured : option string;
  remittanceInformationStructured : option string;
  remittanceInformationStructuredArray : option (list string);
  additionalInformation : option string;
  ultimateCreditor : option string;
  creditorName : option string;
  debtorName : option string;
}.

(** The object [{...transaction, payeeName, date}] an adapter returns:
    [fields] is the copy of the transaction's properties, with the ones the
    adapter overrides replaced; [payeeName] and [date] are the added ones. *)
Record NormalizedTransaction : Type := {
  fields : Transaction;
  payeeName : option string;
  date : option string;
}.

(** A response of the aggregation client: an object with the fields of its
    kind, grouped in [payload], and a numeric [status_code] when the call
    failed. *)
Record Response (A : Type) : Type := {
  status_code : option Z;
  payload : A;
}.
Arguments status_code {A} _.
Arguments payload {A} _.

Module Institution.
Record t : Type := {
  id : string;
  name : option string;
}.
End Institution.

(** What [institutionsById[key] || null] can be: an institution, or something
    the dictionary inherits, a function or the whole of [Object.prototype],
    or a field of an institution that became the dictionary's prototype. *)
Inductive attachment : Type :=
  | OfInstitution (institution : Response Institution.t)
  | OfText (text : string)
  | OfNumber (z : Z)
  | OfFunction (name : string)
  | OfObjectPrototype.

Module Account.
(** An account as the service hands it to an adapter: the metadata and the
    details of the account merged, extended with its institution. *)
Record t : Type := {
  id : option string;
  institution_id : string;
  institution : option attachment;
  iban : option string;
  name : option string;
  product : option string;
}.
End Account.

Module NormalizedAccount.
Record t : Type := {
  account_id : option string;
  institution : option attachment;
  mask : string;
  iban : option string;
  name : string;
  official_name : option string;
  type : string;
}.
End NormalizedAccount.

(** A copy of [t] with some properties replaced, as the object literal
    [{...t, creditorName: c, remittanceInformationUnstructured: r}] builds it. *)
Definition with_creditor_and_remittance
    (t : Transaction) (c r : option string) : Transaction :=
  {| transactionId := transactionId t;
     internalTransactionId := internalTransactionId t;
     transactionAmount := transactionAmount t;
     bookingDate := bookingDate t;
     bookingDateTime := bookingDateTime t;
     valueDate := valueDate t;
     valueDateTime := valueDateTime t;
     remittanceInformationUnstructured := r;
     remittanceInformationStructured := remittanceInformationStructured t;
     remittanceInformationStructuredArray := remittanceInformationStructuredArray t;
     additionalInformation := additionalInformation t;
     ultimateCreditor := ultimateCreditor t;
     creditorName := c;
     debtorName := debtorName t |}.

(** [{...t, transactionId: i}] *)
Definition with_transactionId (t : Transaction) (i : option string) : Transaction :=
  {| transactionId := i;
     internalTransactionId := internalTransactionId t;
     transactionAmount := transactionAmount t;
     bookingDate := bookingDate t;
     bookingDateTime := bookingDateTime t;
     valueDate := valueDate t;
     valueDateTime := valueDateTime t;
     remittanceInformationUnstructured := remittanceInformationUnstructured t;
     remittanceInformationStructured := remittanceInformationStructured t;
     remittanceInformationStructuredArray := remittanceInformationStructuredArray t;
     additionalInformation := additionalInformation t;
     ultimateCreditor := ultimateCreditor t;
     creditorName := creditorName t;
     debtorName := debtorName t |}.

(** The assignment [t.transactionAmount = a]: the object after it. *)
Definition set_transactionAmount (t : Transaction) (a : Amount) : Transaction :=
  {| transactionId := transactionId t;
     internalTransactionId := internalTransactionId t;
     transactionAmount := a;
     bookingDate := bookingDate t;
     bookingDateTime := bookingDateTime t;
     valueDate := valueDate t;
     valueDateTime := valueDateTime t;
     remittanceInformationUnstructured := remittanceInformationUnstructured t;
     remittanceInformationStructured := remittanceInformationStructured t;
     remittanceInformationStructuredArray := remittanceInformationStructuredArray t;
     additionalInformation := additionalInformation t;
     ultimateCreditor := ultimateCreditor t;
     creditorName := creditorName t;
     debtorName := debtorName t |}.

(** A transaction with the given fields and no other, used to write
    examples. *)
Definition sample_transaction (i : option string) (a : string)
    (booking bookingTime value remittance additional : option string) : Transaction :=
  {| transactionId := i;
     internalTransactionId := None;
     transactionAmount := {| amount := a; currency := "EUR" |};
     bookingDate := booking;
     bookingDateTime := bookingTime;
     valueDate := value;
     valueDateTime := None;
     remittanceInformationUnstructured := remittance;
     remittanceInformationStructured := None;
     remittanceInformationStructuredArray := None;
     additionalInformation := additional;
     ultimateCreditor := None;
     creditorName := None;
     debtorName := None |}.

Definition sample_balance (type a : string) : Balance :=
  {| balanceType := type; balanceAmount := {| amount := a; currency := "EUR" |} |}.

(** ** The adapter interface

    The operations every bank adapter offers ([bank.interface.js]).
    [normalizeTransaction] also returns the transaction object it was given,
    as the call leaves it: an adapter may assign to its properties.
    [sortTransactions] has a default parameter, so it accepts [undefined]. *)

Module Bank.
Record t : Type := {
  institutionIds : list string;
  accessValidForDays : Z;
  normalizeAccount : Account.t → outcome js_error NormalizedAccount.t;
  normalizeTransaction :
    Transaction → bool → outcome js_error (option NormalizedTransaction) * Transaction;
  sortTransactions : option (list Transaction) → outcome js_error (list Transaction);
  calculateStartingBalance :
    list Transaction → list Balance → outcome js_error number;
}.
End Bank.

(** A call that does not assign to its argument. *)
Definition leaves_argument {A B : Type} (f : A → B) (a : A) : B * A := (f a, a).

(** Calling a member the adapter object does not have. *)
Definition not_a_function (member : string) : js_error :=
  TypeError ("bank." ++ member ++ " is not a function").

(** ** NORDEA_NDEADKKK *)

Module NordeaNdeadkkk.
Section Adapter.
(** [utils.js] and [util/payee-name.js] are not part of the sources. *)
Variable amountToInteger : string → number.
Variable printIban : Account.t → string.
Variable formatPayeeName : Transaction → option string.

Definition normalizeAccount (account : Account.t)
  : outcome js_error NormalizedAccount.t :=
  match Account.iban account with
  | None => Throw (cannot_read "slice")
  | Some iban =>
      Return {| NormalizedAccount.account_id := Account.id account;
                NormalizedAccount.institution := Account.institution account;
                NormalizedAccount.mask := slice_last 4 iban;
                NormalizedAccount.iban := Some iban;
                NormalizedAccount.name :=
                  join " " [join_item (Account.name account); printIban account];
                NormalizedAccount.official_name := Account.product account;
                NormalizedAccount.type := "checking" |}
  end.

(** The branch for an identifier that starts with P evaluates the object
    literal [{Null}], whose shorthand property reads the identifier [Null];
    no scope declares it. *)
Definition normalizeTransaction (transaction : Transaction) (_booked : bool)
  : outcome js_error (option NormalizedTransaction) :=
  match transactionId transaction with
  | None => Throw (cannot_read "startsWith")
  | Some tid =>
      if startsWith tid "P" then Throw (not_defined "Null")
      else
        Return (Some {| fields := transaction;
                        payeeName := formatPayeeName transaction;
                        date := js_or (bookingDate transaction)
                                      (valueDate transaction) |})
  end.

Definition calculateStartingBalance
    (sortedTransactions : list Transaction) (balances : list Balance)
  : outcome js_error number :=
  let currentBalance :=
    find (λ balance, String.eqb "interimAvailable" (balanceType balance)) balances in
  initial ← match currentBalance with
            | None => Throw (cannot_read "balanceAmount")
            | Some balance => Return (amountToInteger (amount (balanceAmount balance)))
            end;
  Return (foldl (λ total trans,
                   nsub total (amountToInteger (amount (transactionAmount trans))))
                initial sortedTransactions).

(** The adapter object: [{...Fallback, ...}] with the members above. *)
Definition bank (Fallback : Bank.t) : Bank.t :=
  {| Bank.institutionIds := ["NORDEA_NDEADKKK"];
     Bank.accessValidForDays := 90;
     Bank.normalizeAccount := normalizeAccount;
     Bank.normalizeTransaction := λ t b, leaves_argument (λ t, normalizeTransaction t b) t;
     Bank.sortTransactions := Bank.sortTransactions Fallback;
     Bank.calculateStartingBalance := calculateStartingBalance |}.
End Adapter.
End NordeaNdeadkkk.

(** ** BERLINER_SPARKASSE_BELADEBEXXX

    This adapter spells out every operation; they are the ones the
    specification describes as the default behaviour. *)

Module BerlinerSparkasse.
Section Adapter.
Variable amountToInteger : string → number.
Variable printIban : Account.t → string.

Definition normalizeAccount (account : Account.t)
  : outcome js_error NormalizedAccount.t :=
  match Account.iban account with
  | None => Throw (cannot_read "slice")
  | Some iban =>
      Return {| NormalizedAccount.account_id := Account.id account;
                NormalizedAccount.institution := Account.institution account;
                NormalizedAccount.mask := slice_last 4 iban;
                NormalizedAccount.iban := Some iban;
                NormalizedAccount.name :=
                  join " " [join_item (Account.name account); printIban account];
                NormalizedAccount.official_name := Account.product account;
                NormalizedAccount.type := "checking" |}
  end.

(** The first three branches of the remittance text: the value of the local
    variable before [additionalInformation] is looked at. *)
Definition remittance_base (transaction : Transaction) : option string :=
  if truthy (remittanceInformationUnstructured transaction) then
    remittanceInformationUnstructured transaction
  else if truthy (remittanceInformationStructured transaction) then
    remittanceInformationStructured transaction
  else
    match remittanceInformationStructuredArray transaction with
    | Some array =>
        if bool_decide (0 < length array)%nat then Some (join " " array) else None
    | None => None
    end.

(** [remittanceInformationUnstructured += ' ' + additionalInformation] when
    the latter is truthy. *)
Definition remittance_text (transaction : Transaction) : option string :=
  let base := remittance_base transaction in
  if truthy (additionalInformation transaction) then
    Some (to_string base ++ (" " ++ to_string (additionalInformation transaction)))
  else base.

Definition normalizeTransaction (transaction : Transaction) (_booked : bool)
  : outcome js_error (option NormalizedTransaction) :=
  let date_found :=
    js_or (js_or (js_or (bookingDate transaction) (bookingDateTime transaction))
                 (valueDate transaction))
          (valueDateTime transaction) in
  if negb (truthy date_found) then Return None
  else
    let remittance := remittance_text transaction in
    let usefulCreditorName :=
      js_or (js_or (ultimateCreditor transaction) (creditorName transaction))
            (debtorName transaction) in
    Return (Some {| fields := with_creditor_and_remittance
                                transaction usefulCreditorName remittance;
                    payeeName := None;
                    date := js_or (bookingDate transaction)
                                  (valueDate transaction) |}).

Definition sortTransactions (Fallback : Bank.t) (transactions : option (list Transaction))
  : outcome js_error (list Transaction) :=
  Bank.sortTransactions Fallback (Some (default [] transactions)).

Definition calculateStartingBalance
    (sortedTransactions : list Transaction) (balances : list Balance)
  : outcome js_error number :=
  let currentBalance :=
    find (λ balance, String.eqb "interimAvailable" (balanceType balance)) balances in
  initial ← match currentBalance with
            | None => Throw (cannot_read "balanceAmount")
            | Some balance => Return (amountToInteger (amount (balanceAmount balance)))
            end;
  Return (foldl (λ total trans,
                   nsub total (amountToInteger (amount (transactionAmount trans))))
                initial sortedTransactions).

Definition bank (Fallback : Bank.t) : Bank.t :=
  {| Bank.institutionIds := ["BERLINER_SPARKASSE_BELADEBEXXX"];
     Bank.accessValidForDays := 90;
     Bank.normalizeAccount := normalizeAccount;
     Bank.normalizeTransaction := λ t b, leaves_argument (λ t, normalizeTransaction t b) t;
     Bank.sortTransactions := sortTransactions Fallback;
     Bank.calculateStartingBalance := calculateStartingBalance |}.
End Adapter.
End BerlinerSparkasse.

(** ** ENTERCARD_SWEDNOKK

    The adapter object has no [normalizeAccount] and no [sortTransactions],
    and does not spread [Fallback]. *)

Module EntercardSwednokk.
Section Adapter.
Variable amountToInteger : string → number.
(** [amountToInteger(0)], the call on the number that replaces a missing
    balance. *)
Variable amountToInteger_zero : number.
Variable formatPayeeName : Transaction → option string.
(** [d.format(d.parseISO(v), 'yyyy-MM-dd')] of date-fns, which throws on a
    value that is not a date. *)
Variable format_parseISO : option string → outcome js_error string.

(** The transaction object after the assignment the function may make. *)
Definition billed (transaction : Transaction) (remittance : string) : Transaction :=
  if startsWith remittance "billingAmount: " then
    set_transactionAmount transaction
      {| amount := substring_from 15 remittance; currency := "SEK" |}
  else transaction.

Definition normalizeTransaction (transaction : Transaction) (_booked : bool)
  : outcome js_error (option NormalizedTransaction) * Transaction :=
  match remittanceInformationUnstructured transaction with
  | None => (Throw (cannot_read "startsWith"), transaction)
  | Some remittance =>
      let transaction := billed transaction remittance in
      (day ← format_parseISO (valueDate transaction);
       Return (Some {| fields := transaction;
                       payeeName := formatPayeeName transaction;
                       date := Some day |}),
       transaction)
  end.

Definition calculateStartingBalance
    (sortedTransactions : list Transaction) (balances : list Balance)
  : outcome js_error number :=
  let initial :=
    match balances with
    | balance :: _ =>
        if nonempty (amount (balanceAmount balance))
        then amountToInteger (amount (balanceAmount balance))
        else amountToInteger_zero
    | [] => amountToInteger_zero
    end in
  Return (foldl (λ total trans,
                   nsub total (amountToInteger (amount (transactionAmount trans))))
                initial sortedTransactions).

Definition bank : Bank.t :=
  {| Bank.institutionIds := ["ENTERCARD_SWEDNOKK"];
     Bank.accessValidForDays := 180;
     Bank.normalizeAccount := λ _, Throw (not_a_function "normalizeAccount");
     Bank.normalizeTransaction := normalizeTransaction;
     Bank.sortTransactions := λ _, Throw (not_a_function "sortTransactions");
     Bank.calculateStartingBalance := calculateStartingBalance |}.
End Adapter.
End EntercardSwednokk.

(** ** BELFIUS_GKCCBEBB *)

Module BelfiusGkccbebb.
Definition normalizeTransaction (transaction : Transaction) (_booked : bool)
  : outcome js_error (option NormalizedTransaction) :=
  Return (Some {| fields := with_transactionId
                              transaction (internalTransactionId transaction);
                  payeeName := None;
                  date := js_or (bookingDate transaction) (valueDate transaction) |}).

Definition bank (Fallback : Bank.t) : Bank.t :=
  {| Bank.institutionIds := ["BELFIUS_GKCCBEBB"];
     Bank.accessValidForDays := 180;
     Bank.normalizeAccount := Bank.normalizeAccount Fallback;
     Bank.normalizeTransaction := λ t b, leaves_argument (λ t, normalizeTransaction t b) t;
     Bank.sortTransactions := Bank.sortTransactions Fallback;
     Bank.calculateStartingBalance := Bank.calculateStartingBalance Fallback |}.
End BelfiusGkccbebb.

(** ** Amounts in minor units *)

Definition digit_value (c : ascii) : option Z :=
  let n := nat_of_ascii c in
  if bool_decide (48 ≤ n ≤ 57)%nat then Some (Z.of_nat (n - 48)) else None.

Fixpoint digits_value (acc : Z) (s : string) : option Z :=
  match s with
  | EmptyString => Some acc
  | String c rest => d ← digit_value c; digits_value (10 * acc + d) rest
  end.

(** The text before the first dot, and the text after it when there is one. *)
Fixpoint split_dot (s : string) : string * option string :=
  match s with
  | EmptyString => (EmptyString, None)
  | String c rest =>
      if Ascii.eqb c "."%char then (EmptyString, Some rest)
      else let '(whole, fraction) := split_dot rest in (String c whole, fraction)
  end.

Definition unsigned_minor_units (s : string) : option Z :=
  let '(whole, fraction) := split_dot s in
  if nonempty whole then
    w ← digits_value 0 whole;
    match fraction with
    | None | Some EmptyString => Some (100 * w)
    | Some (String a EmptyString) => d ← digit_value a; Some (100 * w + 10 * d)
    | Some (String a (String b EmptyString)) =>
        d ← digit_value a; e ← digit_value b; Some (100 * w + 10 * d + e)
    | Some _ => None
    end
  else None.

(** Modelled from the spec: [amountToInteger] of [utils.js], a file that is
    not part of the sources. The specification has it turn a decimal-string
    amount into the integer amount in minor units, ["1000.00"] into [100000].
    The model covers an optional sign, digits, and at most two fraction
    digits; any other text is not an amount and gives [NaN]. *)
Definition amountToInteger_decimal (s : string) : number :=
  let parsed :=
    match s with
    | String "-" rest => Z.opp <$> unsigned_minor_units rest
    | String "+" rest => unsigned_minor_units rest
    | _ => unsigned_minor_units s
    end in
  match parsed with
  | Some z => Num z
  | None => NaN
  end.


(** ** The error taxonomy and the service's own errors *)

Inductive error : Type :=
  | Runtime (e : js_error)
  | InvalidInputDataError
  | InvalidNordigenTokenError
  | AccessDeniedError
  | NotFoundError
  | ResourceSuspended
  | RateLimitError
  | UnknownError
  | ServiceError
  | RequisitionNotLinked (requisitionStatus : string)
  | AccountNotLinedToRequisition (accountId requisitionId : string).

(** An exception of an adapter, seen from the service. *)
Definition lift_js {A : Type} (r : outcome js_error A) : outcome error A :=
  match r with
  | Return a => Return a
  | Throw e => Throw (Runtime e)
  end.

(** ** Payloads of the aggregation client *)

Record TokenData : Type := {
  access : option string;
}.

Module Requisition.
Record t : Type := {
  id : string;
  status : string;
  accounts : list string;
  institution_id : string;
}.
End Requisition.

Record Session : Type := {
  session_link : option string;
  session_id : option string;
}.

Record SessionParams : Type := {
  redirectUrl : string;
  institutionId : string;
  referenceId : string;
  sessionAccessValidForDays : Z;
}.

Record Deleted : Type := {
  summary : option string;
  detail : option string;
}.

(** The [account] object of a details response. *)
Record AccountDetails : Type := {
  details_iban : option string;
  details_name : option string;
  details_product : option string;
}.

Record Details : Type := {
  account : option AccountDetails;
}.

Record Metadata : Type := {
  metadata_id : option string;
  metadata_institution_id : string;
  metadata_iban : option string;
}.

Record TransactionLists : Type := {
  booked : option (list Transaction);
  pending : option (list Transaction);
}.

Record Transactions : Type := {
  transactions : option TransactionLists;
}.

Record Balances : Type := {
  balances : option (list Balance);
}.

(** The client: each call reads the token the client object holds and acts
    on the world outside the process. *)
Record Client (World : Type) : Type := {
  generateToken : World → Response TokenData * World;
  initSession : SessionParams → option string → World → Response Session * World;
  getRequisitionById : string → option string → World → Response Requisition.t * World;
  deleteRequisitionById : string → option string → World → Response Deleted * World;
  getDetails : string → option string → World → Response Details * World;
  getMetadata : string → option string → World → Response Metadata * World;
  getAccountTransactions :
    string → string → string → option string → World → Response Transactions * World;
  getAccountBalances : string → option string → World → Response Balances * World;
  getInstitutionById : string → option string → World → Response Institution.t * World;
}.
Arguments generateToken {World} _.
Arguments initSession {World} _.
Arguments getRequisitionById {World} _.
Arguments deleteRequisitionById {World} _.
Arguments getDetails {World} _.
Arguments getMetadata {World} _.
Arguments getAccountTransactions {World} _.
Arguments getAccountBalances {World} _.
Arguments getInstitutionById {World} _.

Definition handleNordigenError {A : Type} (response : Response A) : outcome error unit :=
  match status_code response with
  | Some 400 => Throw InvalidInputDataError
  | Some 401 => Throw InvalidNordigenTokenError
  | Some 403 => Throw AccessDeniedError
  | Some 404 => Throw NotFoundError
  | Some 409 => Throw ResourceSuspended
  | Some 429 => Throw RateLimitError
  | Some 500 => Throw UnknownError
  | Some 503 => Throw ServiceError
  | _ => Return tt
  end.

(** The taxonomy as the specification lists it. *)
Definition error_taxonomy : list (Z * error) :=
  [ (400, InvalidInputDataError); (401, InvalidNordigenTokenError);
    (403, AccessDeniedError); (404, NotFoundError); (409, ResourceSuspended);
    (429, RateLimitError); (500, UnknownError); (503, ServiceError) ].

Definition taxonomy_error (code : Z) : option error :=
  snd <$> find (λ entry, Z.eqb (fst entry) code) error_taxonomy.

(** ** Objects used as dictionaries

    [institutionsById] starts as [{}]: an object without properties of its
    own, whose prototype is [Object.prototype]. *)

(** The functions every object inherits from [Object.prototype]; its one
    other member is the accessor [__proto__]. *)
Definition object_prototype_functions : list string :=
  [ "constructor"; "__defineGetter__"; "__defineSetter__"; "hasOwnProperty";
    "__lookupGetter__"; "__lookupSetter__"; "isPrototypeOf";
    "propertyIsEnumerable"; "toString"; "valueOf"; "toLocaleString" ].

(** The dictionary: its own properties, and the institution that took the
    place of [Object.prototype] as its prototype, if one did. *)
Record dictionary : Type := {
  own : gmap string (Response Institution.t);
  prototype : option (Response Institution.t);
}.

Definition empty_object : dictionary := {| own := ∅; prototype := None |}.

(** [acc[key] = institution]. For the key [__proto__] this calls the setter
    inherited from [Object.prototype], which makes the institution the
    prototype of [acc]; any other key becomes a property of [acc]. *)
Definition assign (acc : dictionary) (key : string) (institution : Response Institution.t)
  : dictionary :=
  if String.eqb key "__proto__" then {| own := own acc; prototype := Some institution |}
  else {| own := <[key := institution]> (own acc); prototype := prototype acc |}.

(** A property of an institution object, read by name. *)
Definition institution_property (institution : Response Institution.t) (key : string)
  : option attachment :=
  if String.eqb key "id" then Some (OfText (Institution.id (payload institution)))
  else if String.eqb key "name" then OfText <$> Institution.name (payload institution)
  else if String.eqb key "status_code" then OfNumber <$> status_code institution
  else None.

(** [Object.prototype[key]] for a key other than [__proto__]. *)
Definition inherited (key : string) : option attachment :=
  if bool_decide (key ∈ object_prototype_functions) then Some (OfFunction key) else None.

Definition truthy_attachment (a : attachment) : bool :=
  match a with
  | OfText text => nonempty text
  | OfNumber z => negb (z =? 0)%Z
  | OfInstitution _ | OfFunction _ | OfObjectPrototype => true
  end.

(** [dictionary[key] || null]: the property of the dictionary itself, else
    what the getter of [__proto__] gives, else the property found along the
    prototype chain; null for a value that is absent or falsy. *)
Definition lookup_or_null (d : dictionary) (key : string) : option attachment :=
  let found :=
    match own d !! key with
    | Some institution => Some (OfInstitution institution)
    | None =>
        if String.eqb key "__proto__" then
          Some match prototype d with
               | Some institution => OfInstitution institution
               | None => OfObjectPrototype
               end
        else
          match prototype d with
          | Some institution =>
              match institution_property institution key with
              | Some value => Some value
              | None => inherited key
              end
          | None => inherited key
          end
    end in
  match found with
  | Some value => if truthy_attachment value then Some value else None
  | None => None
  end.

(** ** The orchestration service *)

Record RequisitionWithAccounts : Type := {
  linked_requisition : Response Requisition.t;
  normalized_accounts : list NormalizedAccount.t;
}.

Record TransactionsWithBalance : Type := {
  account_balances : option (list Balance);
  balance_institutionId : string;
  startingBalance : number;
  booked_transactions : list Transaction;
  pending_transactions : list Transaction;
}.

Record CreatedRequisition : Type := {
  link : option string;
  requisitionId : option string;
}.

(** What the process holds and acts on: the token cached in the client
    object, and the world the client's calls reach. *)
Record State (World : Type) : Type := {
  token : option string;
  world : World;
}.
Arguments Build_State {World} _ _.
Arguments token {World} _.
Arguments world {World} _.

(** [new Set()] with [add]: insertion order, no duplicates. *)
Definition set_add (set : list string) (x : string) : list string :=
  if bool_decide (x ∈ set) then set else set ++ [x].

Module NordigenService.
Section WithClient.
Context {World : Type}.
Variable nordigenClient : Client World.
(** [bank-factory.js] and the [uuid] package are not part of the sources. *)
Variable BankFactory : string → Bank.t.
Variable uuid_v4 : World → string * World.

(** A computation of the service. *)
Definition M (A : Type) : Type := State World → outcome error A * State World.

#[local] Instance M_ret : MRet M := λ A a σ, (Return a, σ).
#[local] Instance M_bind : MBind M := λ A B f m σ,
  match m σ with
  | (Return a, σ') => f a σ'
  | (Throw e, σ') => (Throw e, σ')
  end.

Definition lift {A : Type} (r : outcome error A) : M A := λ σ, (r, σ).

(** A request to the client; the response is there once it is awaited. *)
Definition call {A : Type} (request : option string → World → A * World) : M A :=
  λ σ, let '(response, w) := request (token σ) (world σ) in
       (Return response, Build_State (token σ) w).

(** An asynchronous function that sends its requests when it is called and
    does the rest once they are answered: the outer computation is the
    sending, and cannot throw; the inner outcome is what awaiting gives. *)
Definition async (A : Type) : Type := M (outcome error A).

(** [Promise.all] of functions called in order: every request is sent, then
    the results are joined. When several fail, the order in which the
    answers arrive decides which exception surfaces; the order of the
    array is taken here. *)
Definition promise_all {A : Type} (ps : list (async A)) : M (list A) :=
  rs ← mapM (M := M) (λ p : async A, p) ps;
  lift (mapM (M := outcome error) (λ r : outcome error A, r) rs).

Definition promise_all2 {A B : Type} (p : async A) (q : async B) : M (A * B) :=
  ra ← p; rb ← q; lift (a ← ra; b ← rb; Return (a, b)).

Definition setToken : M unit := λ σ,
  if negb (truthy (token σ)) then
    let '(tokenData, w) := generateToken nordigenClient (world σ) in
    match handleNordigenError tokenData with
    | Throw e => (Throw e, Build_State (token σ) w)
    | Return _ => (Return tt, Build_State (access (payload tokenData)) w)
    end
  else (Return tt, σ).

Definition getRequisition (requisitionId : string) : M (Response Requisition.t) :=
  setToken;;
  response ← call (getRequisitionById nordigenClient requisitionId);
  lift (handleNordigenError response);;
  mret response.

Definition getLinkedRequisition (requisitionId : string) : M (Response Requisition.t) :=
  requisition ← getRequisition requisitionId;
  let status := Requisition.status (payload requisition) in
  if negb (String.eqb status "LN") then lift (Throw (RequisitionNotLinked status))
  else mret requisition.

Definition getDetailedAccount (accountId : string) : async Account.t :=
  detailedAccount ← call (getDetails nordigenClient accountId);
  metadataAccount ← call (getMetadata nordigenClient accountId);
  mret (handleNordigenError detailedAccount;;
        handleNordigenError metadataAccount;;
        let details := account (payload detailedAccount) in
        let metadata := payload metadataAccount in
        Return {| Account.id := metadata_id metadata;
                  Account.institution_id := metadata_institution_id metadata;
                  Account.institution := None;
                  Account.iban :=
                    match details ≫= details_iban with
                    | Some iban => Some iban
                    | None => metadata_iban metadata
                    end;
                  Account.name := details ≫= details_name;
                  Account.product := details ≫= details_product |}).

Definition getInstitution (institutionId : string) : async (Response Institution.t) :=
  response ← call (getInstitutionById nordigenClient institutionId);
  mret (handleNordigenError response;; Return response).

(** [institutionsById] is an object used as a dictionary: [lookup_or_null]
    reads it as the language does, inherited members included. *)
Definition extendAccountsAboutInstitutions
    (accounts : list Account.t) (institutions : list (Response Institution.t))
  : M (list Account.t) :=
  let institutionsById : dictionary :=
    foldl (λ acc institution, assign acc (Institution.id (payload institution)) institution)
          empty_object institutions in
  mret (map (λ account,
               {| Account.id := Account.id account;
                  Account.institution_id := Account.institution_id account;
                  Account.institution :=
                    lookup_or_null institutionsById (Account.institution_id account);
                  Account.iban := Account.iban account;
                  Account.name := Account.name account;
                  Account.product := Account.product account |})
            accounts).

Definition getRequisitionWithAccounts (requisitionId : string)
  : M RequisitionWithAccounts :=
  requisition ← getLinkedRequisition requisitionId;
  detailedAccounts ←
    promise_all (map getDetailedAccount (Requisition.accounts (payload requisition)));
  let institutionIdSet :=
    foldl set_add [] (map Account.institution_id detailedAccounts) in
  institutions ← promise_all (map getInstitution institutionIdSet);
  extendedAccounts ← extendAccountsAboutInstitutions detailedAccounts institutions;
  normalizedAccounts ←
    lift (lift_js (mapM (λ account,
                           Bank.normalizeAccount
                             (BankFactory (Account.institution_id account)) account)
                        extendedAccounts));
  mret {| linked_requisition := requisition;
          normalized_accounts := normalizedAccounts |}.

Definition getTransactions (accountId startDate endDate : string)
  : async (Response Transactions) :=
  response ← call (getAccountTransactions nordigenClient accountId startDate endDate);
  mret (handleNordigenError response;; Return response).

Definition getBalances (accountId : string) : async (Response Balances) :=
  response ← call (getAccountBalances nordigenClient accountId);
  mret (handleNordigenError response;; Return response).

(** What [getTransactionsWithBalance] does once the account is known to
    belong to the requisition. [calculateStartingBalance] has a default
    parameter for the balances, applied at the call here; the
    [sortedBookedTransactions.slice()] of the result is a copy of the list. *)
Definition reconcile (institution_id accountId startDate endDate : string)
  : M TransactionsWithBalance :=
  '(transactions_response, accountBalance) ←
    promise_all2 (getTransactions accountId startDate endDate) (getBalances accountId);
  let bank := BankFactory institution_id in
  let lists := transactions (payload transactions_response) in
  sortedBookedTransactions ←
    lift (lift_js (Bank.sortTransactions bank (lists ≫= booked)));
  sortedPendingTransactions ←
    lift (lift_js (Bank.sortTransactions bank (lists ≫= pending)));
  startingBalance ←
    lift (lift_js (Bank.calculateStartingBalance bank sortedBookedTransactions
                     (default [] (balances (payload accountBalance)))));
  mret {| account_balances := balances (payload accountBalance);
          balance_institutionId := institution_id;
          startingBalance := startingBalance;
          booked_transactions := sortedBookedTransactions;
          pending_transactions := sortedPendingTransactions |}.

Definition getTransactionsWithBalance (requisitionId accountId startDate endDate : string)
  : M TransactionsWithBalance :=
  requisition ← getLinkedRequisition requisitionId;
  let institution_id := Requisition.institution_id (payload requisition) in
  let accountIds := Requisition.accounts (payload requisition) in
  if negb (bool_decide (accountId ∈ accountIds)) then
    lift (Throw (AccountNotLinedToRequisition accountId requisitionId))
  else reconcile institution_id accountId startDate endDate.

Definition createRequisition (institutionId : string) (accessValidForDays : Z)
    (host : string) : M CreatedRequisition :=
  setToken;;
  referenceId ← (λ σ, let '(u, w) := uuid_v4 (world σ) in
                      (Return u, Build_State (token σ) w));
  response ← call (initSession nordigenClient
                     {| redirectUrl := host ++ "/nordigen/link";
                        institutionId := institutionId;
                        referenceId := referenceId;
                        sessionAccessValidForDays := accessValidForDays |});
  lift (handleNordigenError response);;
  mret {| link := session_link (payload response);
          requisitionId := session_id (payload response) |}.

Definition deleteRequisition (requisitionId : string) : M (Response Deleted) :=
  getRequisition requisitionId;;
  response ← call (deleteRequisitionById nordigenClient requisitionId);
  lift (handleNordigenError response);;
  mret response.
End WithClient.
End NordigenService.

(** ** Concurrent calls of [setToken]

    The body of [setToken] runs in two turns of the event loop, split at its
    [await]: the first tests the cached token and, when there is none, calls
    [generateToken]; the second, once the answer is there, maps it through
    the error taxonomy and stores the token. Turns of different calls
    interleave. *)

Module TokenCalls.
Section WithClient.
Context {World : Type}.
Variable nordigenClient : Client World.

Inductive call_state : Type :=
  | Called
  | Awaiting (tokenData : Response TokenData)
  | Settled (result : outcome error unit).

(** One turn of a call: the state of the process and of the call after it,
    and whether the turn called [generateToken]. *)
Definition turn (σ : State World) (c : call_state)
  : State World * call_state * bool :=
  match c with
  | Called =>
      if negb (truthy (token σ)) then
        let '(tokenData, w) := generateToken nordigenClient (world σ) in
        (Build_State (token σ) w, Awaiting tokenData, true)
      else (σ, Settled (Return tt), false)
  | Awaiting tokenData =>
      match handleNordigenError tokenData with
      | Throw e => (σ, Settled (Throw e), false)
      | Return _ =>
          (Build_State (access (payload tokenData)) (world σ),
           Settled (Return tt), false)
      end
  | Settled result => (σ, Settled result, false)
  end.

Record system : Type := {
  process : State World;
  calls : list call_state;
  fetches : nat;
}.

(** The event loop gives call [i] its next turn. *)
Definition schedule_turn (s : system) (i : nat) : system :=
  match calls s !! i with
  | None => s
  | Some c =>
      let '(σ, c', fetched) := turn (process s) c in
      {| process := σ;
         calls := <[i := c']> (calls s);
         fetches := if fetched then S (fetches s) else fetches s |}
  end.

Definition run (schedule : list nat) (s : system) : system :=
  foldl schedule_turn s schedule.

(** [n] calls made, none of them run yet. *)
Definition started (n : nat) (σ : State World) : system :=
  {| process := σ; calls := replicate n Called; fetches := 0 |}.
End WithClient.
End TokenCalls.

(** ** A client for examples

    Its world counts the tokens generated so far; requisition R1 is linked
    to accounts A1 and A2, any other requisition is only created. *)

Definition example_requisition (requisitionId : string) : Requisition.t :=
  if String.eqb requisitionId "R1" then
    {| Requisition.id := "R1"; Requisition.status := "LN";
       Requisition.accounts := ["A1"; "A2"];
       Requisition.institution_id := "SANDBOXFINANCE_SFIN0000" |}
  else
    {| Requisition.id := requisitionId; Requisition.status := "CR";
       Requisition.accounts := [];
       Requisition.institution_id := "SANDBOXFINANCE_SFIN0000" |}.

Definition ok {A : Type} (a : A) : Response A :=
  {| status_code := None; payload := a |}.

Definition example_client : Client nat :=
  {| generateToken := λ w,
       (ok {| access := Some ("token-" ++ pretty w) |}, S w);
     initSession := λ _ _ w,
       (ok {| session_link := Some "https://ob.example/start"; session_id := Some "R9" |}, w);
     getRequisitionById := λ requisitionId _ w, (ok (example_requisition requisitionId), w);
     deleteRequisitionById := λ _ _ w,
       (ok {| summary := Some "Requisition deleted"; detail := None |}, w);
     getDetails := λ _ _ w,
       (ok {| account := Some {| details_iban := Some "DE02100100100006820101";
                                 details_name := Some "Main";
                                 details_product := Some "Giro" |} |}, w);
     getMetadata := λ accountId _ w,
       (ok {| metadata_id := Some accountId;
              metadata_institution_id := "SANDBOXFINANCE_SFIN0000";
              metadata_iban := None |}, w);
     getAccountTransactions := λ _ _ _ _ w,
       (ok {| transactions :=
                Some {| booked := Some [sample_transaction (Some "T1") "-5.00"
                                          (Some "2024-03-01") None None None None;
                                        sample_transaction (Some "T2") "2.00"
                                          (Some "2024-03-02") None None None None];
                        pending := None |} |}, w);
     getAccountBalances := λ _ _ w,
       (ok {| balances := Some [sample_balance "interimAvailable" "1000.00"] |}, w);
     getInstitutionById := λ institutionId _ w,
       (ok {| Institution.id := institutionId; Institution.name := None |}, w) |}.

(** The operations of BERLINER_SPARKASSE_BELADEBEXXX with a pass-through
    ordering, as the bank every institution of the examples resolves to. *)
Definition example_bank : Bank.t :=
  {| Bank.institutionIds := [];
     Bank.accessValidForDays := 90;
     Bank.normalizeAccount :=
       BerlinerSparkasse.normalizeAccount
         (λ a, "(XXX " ++ slice_last 4 (default "" (Account.iban a)) ++ ")");
     Bank.normalizeTransaction := λ t b,
       leaves_argument (λ t, BerlinerSparkasse.normalizeTransaction t b) t;
     Bank.sortTransactions := λ ts, Return (default [] ts);
     Bank.calculateStartingBalance :=
       BerlinerSparkasse.calculateStartingBalance amountToInteger_decimal |}.

Definition example_start : State nat := Build_State None 0%nat.

(** ** Notions used to state the properties *)

(** The sum of a list of integer amounts. *)
Definition total (zs : list Z) : Z := foldr Z.add 0 zs.

(** The integers on which the arithmetic of doubles is exact
    ([Number.MAX_SAFE_INTEGER] and its opposite bound them). *)
Definition safe_integer (z : Z) : Prop :=
  (- 9007199254740991 <= z <= 9007199254740991)%Z.

(** The exact values of a balance after each of the amounts is taken off in
    turn. *)
Fixpoint running_balances (z : Z) (zs : list Z) : list Z :=
  match zs with
  | [] => []
  | x :: rest => (z - x) :: running_balances (z - x) rest
  end.

(** The test [calculateStartingBalance] passes to [find]. *)
Definition is_interimAvailable (balance : Balance) : bool :=
  String.eqb "interimAvailable" (balanceType balance).

(** The status codes the specification lists. *)
Definition taxonomy_codes : list Z := [400; 401; 403; 404; 409; 429; 500; 503].

(** The requests [reconcile] sends: the transactions, then the balances. *)
Definition world_after_requests {World : Type} (nordigenClient : Client World)
    (accountId startDate endDate : string) (σ : State World) : World :=
  snd (getAccountBalances nordigenClient accountId (token σ)
         (snd (getAccountTransactions nordigenClient accountId startDate endDate
                 (token σ) (world σ)))).

(** The outcome is the service's error for an account outside the
    requisition. *)
Definition account_not_linked {A : Type} (r : outcome error A) : Prop :=
  ∃ accountId requisitionId, r = Throw (AccountNotLinedToRequisition accountId requisitionId).

(** ** Further examples and notions *)

(** A date formatter for examples: the first ten characters of the text. *)
Definition example_format_parseISO (v : option string) : outcome js_error string :=
  match v with
  | Some text => Return (String.substring 0 10 text)
  | None => Throw (RangeError "Invalid time value")
  end.

(** The example client with another answer to [generateToken]. *)
Definition with_token_answer (answer : Response TokenData) : Client nat :=
  {| generateToken := λ w, (answer, S w);
     initSession := initSession example_client;
     getRequisitionById := getRequisitionById example_client;
     deleteRequisitionById := deleteRequisitionById example_client;
     getDetails := getDetails example_client;
     getMetadata := getMetadata example_client;
     getAccountTransactions := getAccountTransactions example_client;
     getAccountBalances := getAccountBalances example_client;
     getInstitutionById := getInstitutionById example_client |}.

(** A client whose credentials are refused. *)
Definition unauthorized_client : Client nat :=
  with_token_answer {| status_code := Some 401; payload := {| access := None |} |}.

(** A client whose token answer has neither a status code nor a token. *)
Definition tokenless_client : Client nat :=
  with_token_answer (ok {| access := None |}).

(** The example client, with a world that also counts the requests for an
    institution. *)
Definition counting_client : Client nat :=
  {| generateToken := generateToken example_client;
     initSession := initSession example_client;
     getRequisitionById := getRequisitionById example_client;
     deleteRequisitionById := deleteRequisitionById example_client;
     getDetails := getDetails example_client;
     getMetadata := getMetadata example_client;
     getAccountTransactions := getAccountTransactions example_client;
     getAccountBalances := getAccountBalances example_client;
     getInstitutionById := λ institutionId _ w,
       (ok {| Institution.id := institutionId; Institution.name := None |}, S w) |}.

(** A source of reference identifiers for examples. *)
Definition example_uuid (w : nat) : string * nat := ("ref-" ++ pretty w, w).

(** The calls of [setToken] that have not had their first turn. *)
Definition not_yet_run (calls : list TokenCalls.call_state) : nat :=
  List.length (List.filter (λ c, match c with
                                 | TokenCalls.Called => true
                                 | _ => false
                                 end) calls).

(** No call is waiting for an answer to [generateToken]. *)
Definition none_awaiting (calls : list TokenCalls.call_state) : Prop :=
  Forall (λ c, match c with
               | TokenCalls.Awaiting _ => False
               | _ => True
               end) calls.

(** * Properties *)

(** ** Amounts *)

Example amountToInteger_decimal_samples :
  map amountToInteger_decimal ["1000.00"; "-5.00"; "2.00"; "12.5"; "7"; "abc"; "1.005"]
  = [Num 100000; Num (-500); Num 200; Num 1250; Num 700; NaN; NaN].
Proof. reflexivity. Qed.

(** ** Numbers and lookups *)

Lemma round_double_safe (z : Z) : safe_integer z → round_double z = Num z.
Proof.
  unfold safe_integer, round_double. intros Hz. cbv zeta.
  destruct (Z.ltb_spec (Z.abs z) (2 ^ 53)) as [_|Hlarge]; [reflexivity|].
  change (2 ^ 53)%Z with 9007199254740992%Z in Hlarge. lia.
Qed.

(** A difference that is a safe integer is computed exactly. *)
Lemma nsub_safe (x y : Z) : safe_integer (x - y) → nsub (Num x) (Num y) = Num (x - y).
Proof. apply round_double_safe. Qed.

Lemma nsub_NaN_r (a : number) : nsub a NaN = NaN.
Proof. now destruct a. Qed.

Lemma foldl_nsub_NaN (l : list number) : foldl nsub NaN l = NaN.
Proof. induction l as [|x l IH]; [reflexivity | exact IH]. Qed.

(** One operand that is not a number makes the whole reduction NaN. *)
Lemma foldl_nsub_not_numeric (l : list number) (initial : number) :
  NaN ∈ l → foldl nsub initial l = NaN.
Proof.
  revert initial. induction l as [|x l IH]; intros initial H; [now apply elem_of_nil in H|].
  apply elem_of_cons in H as [<-|H]; simpl.
  - rewrite nsub_NaN_r. apply foldl_nsub_NaN.
  - now apply IH.
Qed.

(** The reduction is exact as long as every intermediate result is a safe
    integer. *)
Lemma foldl_nsub_safe (zs : list Z) (z : Z) :
  Forall safe_integer (running_balances z zs) →
  foldl nsub (Num z) (map Num zs) = Num (z - total zs).
Proof.
  revert z. induction zs as [|x zs IH]; intros z H.
  - simpl. f_equal. lia.
  - apply Forall_cons in H as [Hx H].
    change (foldl nsub (nsub (Num z) (Num x)) (map Num zs) = Num (z - (x + total zs))).
    rewrite (nsub_safe _ _ Hx), (IH _ H). f_equal. lia.
Qed.

(** The reduction of the source, over the amounts of the transactions. *)
Lemma reduce_subtracts {A : Type} (f : A → number) (l : list A) (initial : number) :
  foldl (λ acc x, nsub acc (f x)) initial l = foldl nsub initial (map f l).
Proof.
  revert initial. induction l as [|x l IH]; intros initial; [reflexivity | apply IH].
Qed.

Lemma total_permutation (zs zs' : list Z) : zs ≡ₚ zs' → total zs = total zs'.
Proof.
  induction 1 as [|x l l' _ IH|x y l|l l' l'' _ IH1 _ IH2]; simpl; lia.
Qed.

Lemma total_abs_nonnegative (zs : list Z) : (0 <= total (map Z.abs zs))%Z.
Proof. induction zs as [|x zs IH]; simpl; lia. Qed.

(** Amounts whose sizes add up to a safe integer keep every intermediate
    result safe, in whatever order they come. *)
Lemma running_balances_safe (zs : list Z) (z : Z) :
  (Z.abs z + total (map Z.abs zs) <= 9007199254740991)%Z →
  Forall safe_integer (running_balances z zs).
Proof.
  revert z. induction zs as [|x zs IH]; intros z H; simpl in *; [constructor|].
  pose proof (total_abs_nonnegative zs). constructor.
  - unfold safe_integer. lia.
  - apply IH. lia.
Qed.

Lemma is_interimAvailable_true (balance : Balance) :
  is_interimAvailable balance = true ↔ balanceType balance = "interimAvailable".
Proof. unfold is_interimAvailable. rewrite String.eqb_eq. split; congruence. Qed.

Lemma is_interimAvailable_false (balance : Balance) :
  is_interimAvailable balance = false ↔ balanceType balance ≠ "interimAvailable".
Proof. unfold is_interimAvailable. rewrite String.eqb_neq. split; congruence. Qed.

(** [find] skips the entries of another type. *)
Lemma find_first_interimAvailable (before after : list Balance) (current : Balance) :
  Forall (λ b, balanceType b ≠ "interimAvailable") before →
  balanceType current = "interimAvailable" →
  find is_interimAvailable (before ++ current :: after) = Some current.
Proof.
  intros Hbefore Hcurrent. induction Hbefore as [|b before Hb _ IH]; simpl.
  - apply is_interimAvailable_true in Hcurrent. now rewrite Hcurrent.
  - apply is_interimAvailable_false in Hb. now rewrite Hb.
Qed.

Lemma find_interimAvailable_none (balances : list Balance) :
  find is_interimAvailable balances = None
  ↔ Forall (λ b, balanceType b ≠ "interimAvailable") balances.
Proof.
  induction balances as [|b balances IH]; simpl.
  - split; [constructor | reflexivity].
  - destruct (is_interimAvailable b) eqn:Hb.
    + split; [discriminate|]. intros H. apply Forall_cons in H as [H _].
      apply is_interimAvailable_true in Hb. contradiction.
    + rewrite IH. apply is_interimAvailable_false in Hb.
      split; [now constructor | intros H; now apply Forall_cons in H as [_ H]].
Qed.

Lemma find_interimAvailable_some (balances : list Balance) :
  is_Some (find is_interimAvailable balances)
  ↔ Exists (λ b, balanceType b = "interimAvailable") balances.
Proof.
  induction balances as [|b balances IH]; simpl.
  - split; [intros [? ?]; discriminate | intros H; inversion H].
  - destruct (is_interimAvailable b) eqn:Hb.
    + apply is_interimAvailable_true in Hb. split; [now constructor | eauto].
    + rewrite IH. apply is_interimAvailable_false in Hb.
      split; [now constructor | intros H; inversion H; [contradiction | assumption]].
Qed.

(** The two adapters that look the balance up by type share one body. *)
Lemma nordea_calculateStartingBalance_default (amountToInteger : string → number) :
  NordeaNdeadkkk.calculateStartingBalance amountToInteger
  = BerlinerSparkasse.calculateStartingBalance amountToInteger.
Proof. reflexivity. Qed.

Lemma calculateStartingBalance_unfold (amountToInteger : string → number)
    (sortedTransactions : list Transaction) (balances : list Balance) :
  BerlinerSparkasse.calculateStartingBalance amountToInteger sortedTransactions balances
  = match find is_interimAvailable balances with
    | None => Throw (cannot_read "balanceAmount")
    | Some balance =>
        Return (foldl nsub (amountToInteger (amount (balanceAmount balance)))
                      (map (λ t, amountToInteger (amount (transactionAmount t)))
                           sortedTransactions))
    end.
Proof.
  unfold BerlinerSparkasse.calculateStartingBalance.
  change (λ balance : Balance, String.eqb "interimAvailable" (balanceType balance))
    with is_interimAvailable.
  destruct (find is_interimAvailable balances); simpl; [|reflexivity].
  f_equal. apply (reduce_subtracts (λ t, amountToInteger (amount (transactionAmount t)))).
Qed.

(** ** Starting balance *)

(** C3. With the first balance of type "interimAvailable" worth [z] minor
    units and the booked transactions worth [zs], the default
    [calculateStartingBalance] (BERLINER_SPARKASSE_BELADEBEXXX and
    NORDEA_NDEADKKK alike) returns [z] minus the sum of [zs], provided the
    balance stays a safe integer after each of the amounts is taken off. *)
Theorem calculateStartingBalance_reconciles
    (amountToInteger : string → number) (sortedTransactions : list Transaction)
    (before after : list Balance) (current : Balance) (z : Z) (zs : list Z) :
  Forall (λ b, balanceType b ≠ "interimAvailable") before →
  balanceType current = "interimAvailable" →
  amountToInteger (amount (balanceAmount current)) = Num z →
  map (λ t, amountToInteger (amount (transactionAmount t))) sortedTransactions
    = map Num zs →
  Forall safe_integer (running_balances z zs) →
  BerlinerSparkasse.calculateStartingBalance amountToInteger sortedTransactions
      (before ++ current :: after) = Return (Num (z - total zs))
  ∧ NordeaNdeadkkk.calculateStartingBalance amountToInteger sortedTransactions
      (before ++ current :: after) = Return (Num (z - total zs)).
Proof.
  intros Hbefore Hcurrent Hz Hzs Hsafe.
  assert (BerlinerSparkasse.calculateStartingBalance amountToInteger sortedTransactions
            (before ++ current :: after) = Return (Num (z - total zs))) as H.
  { rewrite calculateStartingBalance_unfold.
    rewrite (find_first_interimAvailable _ _ _ Hbefore Hcurrent).
    now rewrite Hz, Hzs, foldl_nsub_safe. }
  split; exact H.
Qed.

(** The example of the specification: a balance of "1000.00" and booked
    amounts of -500 and 200 minor units give 100300. *)
Lemma calculateStartingBalance_reconciles_example :
  BerlinerSparkasse.calculateStartingBalance amountToInteger_decimal
      [sample_transaction (Some "T1") "-5.00" None None None None None;
       sample_transaction (Some "T2") "2.00" None None None None None]
      ([] ++ sample_balance "interimAvailable" "1000.00" :: [])
    = Return (Num 100300)
  ∧ NordeaNdeadkkk.calculateStartingBalance amountToInteger_decimal
      [sample_transaction (Some "T1") "-5.00" None None None None None;
       sample_transaction (Some "T2") "2.00" None None None None None]
      ([] ++ sample_balance "interimAvailable" "1000.00" :: [])
    = Return (Num 100300).
Proof.
  apply (calculateStartingBalance_reconciles amountToInteger_decimal _ [] []
           (sample_balance "interimAvailable" "1000.00") 100000 [-500; 200]).
  - constructor.
  - reflexivity.
  - reflexivity.
  - reflexivity.
  - repeat constructor; simpl; lia.
Defined.

(** Past the safe integers the subtraction rounds. A balance of "0.01" with
    booked amounts of -9007199254740992 and 1 minor units: 1 minus the sum is
    9007199254740992, but the first subtraction gives 9007199254740993, which
    no double has as its value and which becomes 9007199254740992, and the
    second one leaves 9007199254740991. *)
Lemma calculateStartingBalance_rounds :
  let sortedTransactions :=
    [sample_transaction (Some "T1") "-90071992547409.92" None None None None None;
     sample_transaction (Some "T2") "0.01" None None None None None] in
  let current := sample_balance "interimAvailable" "0.01" in
  balanceType current = "interimAvailable"
  ∧ amountToInteger_decimal (amount (balanceAmount current)) = Num 1
  ∧ map (λ t, amountToInteger_decimal (amount (transactionAmount t))) sortedTransactions
    = map Num [-9007199254740992; 1]
  ∧ (1 - total [-9007199254740992; 1] = 9007199254740992)%Z
  ∧ BerlinerSparkasse.calculateStartingBalance amountToInteger_decimal sortedTransactions
      ([] ++ current :: []) = Return (Num 9007199254740991)
  ∧ NordeaNdeadkkk.calculateStartingBalance amountToInteger_decimal sortedTransactions
      ([] ++ current :: []) = Return (Num 9007199254740991)
  ∧ BerlinerSparkasse.calculateStartingBalance amountToInteger_decimal sortedTransactions
      ([] ++ current :: [])
    ≠ Return (Num (1 - total [-9007199254740992; 1])).
Proof. vm_compute. repeat split. discriminate. Qed.

(** C10. The default [calculateStartingBalance] throws on reading
    [balanceAmount] of the lookup's [undefined] result exactly when no balance
    has type "interimAvailable", whatever the transactions; it returns a
    number exactly when one has. *)
Theorem calculateStartingBalance_total_iff
    (amountToInteger : string → number) (sortedTransactions : list Transaction)
    (balances : list Balance) :
  (BerlinerSparkasse.calculateStartingBalance amountToInteger sortedTransactions balances
     = Throw (cannot_read "balanceAmount")
   ↔ Forall (λ b, balanceType b ≠ "interimAvailable") balances)
  ∧ ((∃ n, BerlinerSparkasse.calculateStartingBalance amountToInteger
             sortedTransactions balances = Return n)
     ↔ Exists (λ b, balanceType b = "interimAvailable") balances)
  ∧ NordeaNdeadkkk.calculateStartingBalance amountToInteger sortedTransactions balances
    = BerlinerSparkasse.calculateStartingBalance amountToInteger sortedTransactions balances.
Proof.
  split; [|split; [|reflexivity]]; rewrite calculateStartingBalance_unfold.
  all: rewrite <- ?find_interimAvailable_none, <- ?find_interimAvailable_some.
  all: destruct (find is_interimAvailable balances) as [b|]; split.
  - discriminate.
  - discriminate.
  - reflexivity.
  - reflexivity.
  - eauto.
  - eauto.
  - intros [n H]. discriminate.
  - intros [b H]. discriminate.
Qed.

(** ** Normalized transactions *)

Lemma js_or_present (a b : option string) :
  truthy a || truthy b = true → js_or a b ≠ None.
Proof.
  unfold js_or. destruct (truthy a) eqn:Ha; simpl.
  - intros _ ->. discriminate.
  - intros Hb ->. discriminate.
Qed.

(** What BERLINER_SPARKASSE_BELADEBEXXX returns for a transaction it keeps:
    the date is looked for in [bookingDate] and [valueDate] only. *)
Lemma berliner_kept_transaction (transaction : Transaction) (booked : bool)
    (n : NormalizedTransaction) :
  BerlinerSparkasse.normalizeTransaction transaction booked = Return (Some n) →
  date n = js_or (bookingDate transaction) (valueDate transaction)
  ∧ remittanceInformationUnstructured (fields n)
    = BerlinerSparkasse.remittance_text transaction.
Proof.
  unfold BerlinerSparkasse.normalizeTransaction.
  destruct (negb _); [discriminate|]. intros [= <-]. split; reflexivity.
Qed.

(** A kept transaction with a booking or a value date has a date. *)
Lemma berliner_date_present (transaction : Transaction) (booked : bool)
    (n : NormalizedTransaction) :
  BerlinerSparkasse.normalizeTransaction transaction booked = Return (Some n) →
  truthy (bookingDate transaction) || truthy (valueDate transaction) = true →
  date n ≠ None.
Proof.
  intros Hkept Hdate. apply berliner_kept_transaction in Hkept as [-> _].
  now apply js_or_present.
Qed.

(** A transaction that lacks all four date fields is dropped. *)
Lemma berliner_drops_undated (transaction : Transaction) (booked : bool) :
  bookingDate transaction = None → bookingDateTime transaction = None →
  valueDate transaction = None → valueDateTime transaction = None →
  BerlinerSparkasse.normalizeTransaction transaction booked = Return None.
Proof.
  intros H1 H2 H3 H4. unfold BerlinerSparkasse.normalizeTransaction.
  now rewrite H1, H2, H3, H4.
Qed.

(** ENTERCARD_SWEDNOKK formats the date it returns, so it is always there. *)
Lemma entercard_date_present (formatPayeeName : Transaction → option string)
    (format_parseISO : option string → outcome js_error string)
    (transaction : Transaction) (booked : bool) (n : NormalizedTransaction) :
  fst (EntercardSwednokk.normalizeTransaction formatPayeeName format_parseISO
         transaction booked) = Return (Some n) →
  date n ≠ None.
Proof.
  unfold EntercardSwednokk.normalizeTransaction.
  destruct (remittanceInformationUnstructured transaction); simpl; [|discriminate].
  destruct (format_parseISO _); simpl; [|discriminate].
  intros [= <-]. discriminate.
Qed.

(** C1. A transaction that carries only [bookingDateTime] passes the date
    test of BERLINER_SPARKASSE_BELADEBEXXX (the default behaviour) and is
    returned without a date; NORDEA_NDEADKKK and BELFIUS_GKCCBEBB return a
    transaction that has neither [bookingDate] nor [valueDate] without a date
    as well. *)
Theorem normalizeTransaction_returns_undated :
  (∃ n, BerlinerSparkasse.normalizeTransaction
          (sample_transaction (Some "T1") "1.00" None (Some "2024-03-01T09:30:00Z")
             None None None) true = Return (Some n)
        ∧ date n = None)
  ∧ (∀ formatPayeeName,
       ∃ n, NordeaNdeadkkk.normalizeTransaction formatPayeeName
              (sample_transaction (Some "T1") "1.00" None None None None None) true
            = Return (Some n)
            ∧ date n = None)
  ∧ (∃ n, BelfiusGkccbebb.normalizeTransaction
            (sample_transaction (Some "T1") "1.00" None None None None None) true
          = Return (Some n)
          ∧ date n = None).
Proof.
  split; [|split].
  - eexists. split; reflexivity.
  - intros formatPayeeName. eexists. split; reflexivity.
  - eexists. split; reflexivity.
Qed.

(** An identifier that starts with P makes NORDEA_NDEADKKK throw. *)
Lemma nordea_P_throws (formatPayeeName : Transaction → option string)
    (transaction : Transaction) (booked : bool) (tid : string) :
  transactionId transaction = Some tid →
  startsWith tid "P" = true →
  NordeaNdeadkkk.normalizeTransaction formatPayeeName transaction booked
  = Throw (ReferenceError "Null is not defined").
Proof.
  intros Htid HP. unfold NordeaNdeadkkk.normalizeTransaction. now rewrite Htid, HP.
Qed.

(** C4. For the transaction with identifier "P123", NORDEA_NDEADKKK's
    [normalizeTransaction] does not return null: evaluating [{Null}] throws a
    ReferenceError. *)
Theorem nordea_normalizeTransaction_P123 :
  ∀ formatPayeeName booked,
    NordeaNdeadkkk.normalizeTransaction formatPayeeName
      (sample_transaction (Some "P123") "1.00" (Some "2024-03-01") None None None None)
      booked
    = Throw (ReferenceError "Null is not defined")
    ∧ NordeaNdeadkkk.normalizeTransaction formatPayeeName
        (sample_transaction (Some "P123") "1.00" (Some "2024-03-01") None None None None)
        booked
      ≠ Return None.
Proof. intros formatPayeeName booked. split; [reflexivity | discriminate]. Qed.

(** The remittance text when one of the three remittance fields is usable:
    that field, followed by a space and [additionalInformation] when the
    latter is there. *)
Lemma berliner_remittance_text (transaction : Transaction) (base : string) :
  BerlinerSparkasse.remittance_base transaction = Some base →
  BerlinerSparkasse.remittance_text transaction
  = if truthy (additionalInformation transaction)
    then Some (base ++ " " ++ to_string (additionalInformation transaction))
    else Some base.
Proof.
  intros Hbase. unfold BerlinerSparkasse.remittance_text. rewrite Hbase.
  destruct (truthy _); reflexivity.
Qed.

Lemma berliner_remittance_base (transaction : Transaction) :
  BerlinerSparkasse.remittance_base transaction
  = match remittanceInformationUnstructured transaction,
          remittanceInformationStructured transaction,
          remittanceInformationStructuredArray transaction with
    | Some (String a u), _, _ => Some (String a u)
    | _, Some (String a s), _ => Some (String a s)
    | _, _, Some (x :: array) => Some (join " " (x :: array))
    | _, _, _ => None
    end.
Proof.
  unfold BerlinerSparkasse.remittance_base.
  destruct (remittanceInformationUnstructured transaction) as [[|? ?]|];
    destruct (remittanceInformationStructured transaction) as [[|? ?]|];
    destruct (remittanceInformationStructuredArray transaction) as [[|? ?]|];
    reflexivity.
Qed.

(** C5. For the kept transaction that has [additionalInformation] "note" and
    none of the three remittance fields, the remittance text of
    BERLINER_SPARKASSE_BELADEBEXXX is "undefined note": the text of the
    variable that was never assigned is part of it. *)
Theorem berliner_remittance_undefined :
  ∃ n, BerlinerSparkasse.normalizeTransaction
         (sample_transaction (Some "T1") "1.00" (Some "2024-03-01") None None None
            (Some "note")) true = Return (Some n)
       ∧ remittanceInformationUnstructured (fields n) = Some "undefined note".
Proof. eexists. split; reflexivity. Qed.

(** ** Effects on the transaction passed in *)

Lemma billed_remittance (transaction : Transaction) (remittance : string) :
  remittanceInformationUnstructured (EntercardSwednokk.billed transaction remittance)
  = remittanceInformationUnstructured transaction.
Proof. unfold EntercardSwednokk.billed. destruct (startsWith _ _); reflexivity. Qed.

Lemma billed_twice (transaction : Transaction) (remittance : string) :
  EntercardSwednokk.billed (EntercardSwednokk.billed transaction remittance) remittance
  = EntercardSwednokk.billed transaction remittance.
Proof. unfold EntercardSwednokk.billed. destruct (startsWith _ _); reflexivity. Qed.

(** ENTERCARD_SWEDNOKK's [normalizeTransaction] replaces the amount of the
    very object it is given. *)
Lemma entercard_modifies_argument :
  transactionAmount
    (snd (EntercardSwednokk.normalizeTransaction (λ _, None)
            (λ v, match v with
                  | Some day => Return day
                  | None => Throw (RangeError "Invalid time value")
                  end)
            (sample_transaction (Some "T1") "10.00" None None (Some "2024-03-01")
               (Some "billingAmount: 104.50") None)
            true))
  = {| amount := "104.50"; currency := "SEK" |}
  ∧ transactionAmount
      (sample_transaction (Some "T1") "10.00" None None (Some "2024-03-01")
         (Some "billingAmount: 104.50") None)
    = {| amount := "10.00"; currency := "EUR" |}
  ∧ snd (EntercardSwednokk.normalizeTransaction (λ _, None)
           (λ v, match v with
                 | Some day => Return day
                 | None => Throw (RangeError "Invalid time value")
                 end)
           (sample_transaction (Some "T1") "10.00" None None (Some "2024-03-01")
              (Some "billingAmount: 104.50") None)
           true)
    ≠ sample_transaction (Some "T1") "10.00" None None (Some "2024-03-01")
        (Some "billingAmount: 104.50") None.
Proof. split; [reflexivity | split; [reflexivity | discriminate]]. Qed.

(** C2, amended. The [normalizeTransaction] of NORDEA_NDEADKKK, of
    BERLINER_SPARKASSE_BELADEBEXXX (the default) and of BELFIUS_GKCCBEBB leave
    the transaction they are given as it is. ENTERCARD_SWEDNOKK's replaces its
    [transactionAmount] when the unstructured remittance starts with
    "billingAmount: ", and leaves it as it is otherwise. For each of the four,
    a second call on the same object returns what the first returned and
    leaves the object as the first left it. *)
Theorem normalizeTransaction_effect_on_argument :
  ∀ (Fallback : Bank.t) (amountToInteger : string → number)
    (amountToInteger_zero : number) (printIban : Account.t → string)
    (formatPayeeName : Transaction → option string)
    (format_parseISO : option string → outcome js_error string)
    (transaction : Transaction) (booked : bool),
    let nordea := NordeaNdeadkkk.bank amountToInteger printIban formatPayeeName Fallback in
    let berliner := BerlinerSparkasse.bank amountToInteger printIban Fallback in
    let belfius := BelfiusGkccbebb.bank Fallback in
    let entercard :=
      EntercardSwednokk.bank amountToInteger amountToInteger_zero formatPayeeName
        format_parseISO in
    (∀ bank, bank ∈ [nordea; berliner; belfius] →
       snd (Bank.normalizeTransaction bank transaction booked) = transaction)
    ∧ snd (Bank.normalizeTransaction entercard transaction booked)
      = match remittanceInformationUnstructured transaction with
        | Some remittance =>
            if startsWith remittance "billingAmount: " then
              set_transactionAmount transaction
                {| amount := substring_from 15 remittance; currency := "SEK" |}
            else transaction
        | None => transaction
        end
    ∧ (∀ bank, bank ∈ [nordea; berliner; belfius; entercard] →
         Bank.normalizeTransaction bank
           (snd (Bank.normalizeTransaction bank transaction booked)) booked
         = Bank.normalizeTransaction bank transaction booked).
Proof.
  intros. split; [|split].
  - intros bank Hbank.
    repeat (apply elem_of_cons in Hbank as [->|Hbank]; [reflexivity|]).
    now apply elem_of_nil in Hbank.
  - simpl. unfold EntercardSwednokk.normalizeTransaction.
    destruct (remittanceInformationUnstructured transaction); reflexivity.
  - intros bank Hbank.
    do 3 (apply elem_of_cons in Hbank as [->|Hbank]; [reflexivity|]).
    apply elem_of_cons in Hbank as [->|Hbank]; [|now apply elem_of_nil in Hbank].
    simpl. unfold EntercardSwednokk.normalizeTransaction.
    destruct (remittanceInformationUnstructured transaction) as [remittance|] eqn:Hr;
      simpl.
    + now rewrite billed_remittance, Hr, billed_twice.
    + now rewrite Hr.
Qed.

(** ** The error taxonomy *)

Lemma handleNordigenError_lookup {A : Type} (response : Response A) :
  handleNordigenError response
  = match status_code response ≫= taxonomy_error with
    | Some e => Throw e
    | None => Return tt
    end.
Proof.
  unfold handleNordigenError. destruct (status_code response) as [code|]; [|reflexivity].
  destruct code as [|p|p]; try reflexivity.
  do 10 (try (destruct p as [p|p|]; try reflexivity)).
Qed.

Lemma taxonomy_error_entry (code : Z) (e : error) :
  taxonomy_error code = Some e ↔ (code, e) ∈ error_taxonomy.
Proof.
  split.
  - unfold taxonomy_error. destruct (find _ _) as [[c e']|] eqn:Hfind; [|discriminate].
    intros [= <-]. apply find_some in Hfind as [Hin Heq]. simpl in Heq.
    apply Z.eqb_eq in Heq as <-. now apply list_elem_of_In.
  - unfold error_taxonomy. intros H.
    repeat (apply elem_of_cons in H as [[= -> ->]|H]; [reflexivity|]).
    now apply elem_of_nil in H.
Qed.

Lemma taxonomy_error_code (code : Z) :
  is_Some (taxonomy_error code) ↔ code ∈ taxonomy_codes.
Proof.
  split.
  - intros [e He]. apply taxonomy_error_entry in He. unfold error_taxonomy in He.
    unfold taxonomy_codes.
    repeat (apply elem_of_cons in He as [[= -> ->]|He];
            [repeat first [apply list_elem_of_here | apply list_elem_of_further]|]).
    now apply elem_of_nil in He.
  - unfold taxonomy_codes. intros H.
    repeat (apply elem_of_cons in H as [->|H]; [eexists; reflexivity|]).
    now apply elem_of_nil in H.
Qed.

(** C6. [handleNordigenError] throws [e] exactly when the response carries a
    status code that the taxonomy maps to [e]; it throws at all exactly for
    the codes 400, 401, 403, 404, 409, 429, 500 and 503, and returns for any
    other code and for a response without one. *)
Theorem handleNordigenError_taxonomy {A : Type} (response : Response A) :
  (∀ e, handleNordigenError response = Throw e
        ↔ ∃ code, status_code response = Some code ∧ (code, e) ∈ error_taxonomy)
  ∧ ((∃ e, handleNordigenError response = Throw e)
     ↔ ∃ code, status_code response = Some code ∧ code ∈ taxonomy_codes)
  ∧ (handleNordigenError response = Return tt
     ↔ ∀ code, status_code response = Some code → code ∉ taxonomy_codes).
Proof.
  rewrite handleNordigenError_lookup.
  destruct (status_code response) as [code|]; simpl.
  - destruct (taxonomy_error code) as [e0|] eqn:He0; (split; [|split]).
    + intros e. split.
      * intros [= <-]. exists code. split; [reflexivity | now apply taxonomy_error_entry].
      * intros (c & [= <-] & Hin). apply taxonomy_error_entry in Hin. congruence.
    + split; [|eauto]. intros _. exists code. split; [reflexivity|].
      apply taxonomy_error_code. rewrite He0. eauto.
    + split; [discriminate|]. intros H. exfalso. apply (H code eq_refl).
      apply taxonomy_error_code. rewrite He0. eauto.
    + intros e. split; [discriminate|].
      intros (c & [= <-] & Hin). apply taxonomy_error_entry in Hin. congruence.
    + split; [intros [e He]; discriminate|].
      intros (c & [= <-] & Hin). apply taxonomy_error_code in Hin as [e He]. congruence.
    + split; [|reflexivity]. intros _ c [= <-] Hin.
      apply taxonomy_error_code in Hin as [e He]. congruence.
  - split; [|split].
    + intros e. split; [discriminate | intros (c & Hc & _); discriminate].
    + split; [intros [e He]; discriminate | intros (c & Hc & _); discriminate].
    + split; [intros _ c Hc; discriminate | reflexivity].
Qed.

(** What the taxonomy throws is never one of the service's own errors. *)
Lemma handleNordigenError_throws {A : Type} (response : Response A) (e : error) :
  handleNordigenError response = Throw e →
  e ∈ [InvalidInputDataError; InvalidNordigenTokenError; AccessDeniedError;
       NotFoundError; ResourceSuspended; RateLimitError; UnknownError; ServiceError].
Proof.
  rewrite handleNordigenError_lookup.
  destruct (status_code response ≫= taxonomy_error) as [e0|] eqn:He0; [|discriminate].
  intros [= <-]. destruct (status_code response) as [c|]; [|discriminate].
  simpl in He0. apply taxonomy_error_entry in He0 as H. unfold error_taxonomy in H.
  repeat (apply elem_of_cons in H as [[= -> ->]|H];
          [repeat first [apply list_elem_of_here | apply list_elem_of_further]|]).
  now apply elem_of_nil in H.
Qed.

(** ** Guards of the service *)

Section ServiceGuards.
Context {World : Type}.
Variable nordigenClient : Client World.
Variable BankFactory : string → Bank.t.

#[local] Abbreviation getRequisition := (NordigenService.getRequisition nordigenClient).
#[local] Abbreviation getLinkedRequisition := (NordigenService.getLinkedRequisition nordigenClient).
#[local] Abbreviation getRequisitionWithAccounts :=
  (NordigenService.getRequisitionWithAccounts nordigenClient BankFactory).
#[local] Abbreviation getTransactionsWithBalance :=
  (NordigenService.getTransactionsWithBalance nordigenClient BankFactory).
#[local] Abbreviation reconcile := (NordigenService.reconcile nordigenClient BankFactory).

Lemma getLinkedRequisition_not_linked (requisitionId : string) (σ σ' : State World)
    (requisition : Response Requisition.t) :
  getRequisition requisitionId σ = (Return requisition, σ') →
  Requisition.status (payload requisition) ≠ "LN" →
  getLinkedRequisition requisitionId σ
  = (Throw (RequisitionNotLinked (Requisition.status (payload requisition))), σ').
Proof.
  intros Hget Hstatus. unfold NordigenService.getLinkedRequisition.
  unfold mbind at 1, NordigenService.M_bind. rewrite Hget.
  apply String.eqb_neq in Hstatus. now rewrite Hstatus.
Qed.

Lemma getLinkedRequisition_linked (requisitionId : string) (σ σ' : State World)
    (requisition : Response Requisition.t) :
  getRequisition requisitionId σ = (Return requisition, σ') →
  Requisition.status (payload requisition) = "LN" →
  getLinkedRequisition requisitionId σ = (Return requisition, σ').
Proof.
  intros Hget Hstatus. unfold NordigenService.getLinkedRequisition.
  unfold mbind at 1, NordigenService.M_bind. rewrite Hget.
  apply String.eqb_eq in Hstatus. now rewrite Hstatus.
Qed.

(** Both operations start with [getLinkedRequisition] and stop when it
    throws. *)
Lemma operations_stop_when_not_linked (requisitionId accountId startDate endDate : string)
    (σ σ' : State World) (e : error) :
  getLinkedRequisition requisitionId σ = (Throw e, σ') →
  getRequisitionWithAccounts requisitionId σ = (Throw e, σ')
  ∧ getTransactionsWithBalance requisitionId accountId startDate endDate σ
    = (Throw e, σ').
Proof.
  intros Hlinked. split.
  - unfold NordigenService.getRequisitionWithAccounts.
    unfold mbind at 1, NordigenService.M_bind. now rewrite Hlinked.
  - unfold NordigenService.getTransactionsWithBalance.
    unfold mbind at 1, NordigenService.M_bind. now rewrite Hlinked.
Qed.

(** C7. When the requisition fetched has a status other than "LN",
    [getLinkedRequisition], [getRequisitionWithAccounts] and
    [getTransactionsWithBalance] each throw [RequisitionNotLinked]; when the
    status is "LN", [getLinkedRequisition] returns the requisition as
    fetched. *)
Theorem link_status_guard (requisitionId accountId startDate endDate : string)
    (σ σ' : State World) (requisition : Response Requisition.t) :
  getRequisition requisitionId σ = (Return requisition, σ') →
  (Requisition.status (payload requisition) ≠ "LN" →
     let e := RequisitionNotLinked (Requisition.status (payload requisition)) in
     getLinkedRequisition requisitionId σ = (Throw e, σ')
     ∧ getRequisitionWithAccounts requisitionId σ = (Throw e, σ')
     ∧ getTransactionsWithBalance requisitionId accountId startDate endDate σ
       = (Throw e, σ'))
  ∧ (Requisition.status (payload requisition) = "LN" →
       getLinkedRequisition requisitionId σ = (Return requisition, σ')).
Proof.
  intros Hget. split.
  - intros Hstatus e.
    pose proof (getLinkedRequisition_not_linked _ _ _ _ Hget Hstatus) as Hlinked.
    split; [exact Hlinked|].
    exact (operations_stop_when_not_linked _ accountId startDate endDate _ _ _ Hlinked).
  - now apply getLinkedRequisition_linked.
Qed.

Lemma handleNordigenError_own_error {A : Type} (response : Response A)
    (accountId requisitionId : string) :
  handleNordigenError response
  ≠ Throw (AccountNotLinedToRequisition accountId requisitionId).
Proof.
  intros H. apply handleNordigenError_throws in H.
  repeat (apply elem_of_cons in H as [H|H]; [discriminate|]).
  now apply elem_of_nil in H.
Qed.

(** Once the guards are passed, both requests are sent, whatever comes of
    them, and no failure is an [AccountNotLinedToRequisition]. *)
Lemma reconcile_requests (institution_id accountId startDate endDate : string)
    (σ : State World) :
  world (snd (reconcile institution_id accountId startDate endDate σ))
  = world_after_requests nordigenClient accountId startDate endDate σ
  ∧ ¬ account_not_linked (fst (reconcile institution_id accountId startDate endDate σ)).
Proof.
  unfold NordigenService.reconcile, NordigenService.promise_all2,
    NordigenService.getTransactions, NordigenService.getBalances,
    NordigenService.call, NordigenService.lift, world_after_requests.
  unfold mbind, mret, NordigenService.M_bind, NordigenService.M_ret, outcome_bind.
  destruct (getAccountTransactions _ _ _ _ _ _) as [r1 w1]. simpl.
  destruct (getAccountBalances _ _ _ _) as [r2 w2]. simpl.
  destruct (handleNordigenError r1) as [[]|e1] eqn:H1; simpl.
  2: { split; [reflexivity|]. intros (a & r & [= ->]).
       now apply handleNordigenError_own_error in H1. }
  destruct (handleNordigenError r2) as [[]|e2] eqn:H2; simpl.
  2: { split; [reflexivity|]. intros (a & r & [= ->]).
       now apply handleNordigenError_own_error in H2. }
  destruct (Bank.sortTransactions _ _) as [sortedBooked|?]; simpl.
  2: { split; [reflexivity|]. intros (a & r & [=]). }
  destruct (Bank.sortTransactions _ _) as [sortedPending|?]; simpl.
  2: { split; [reflexivity|]. intros (a & r & [=]). }
  destruct (Bank.calculateStartingBalance _ _ _) as [balance|?]; simpl.
  2: { split; [reflexivity|]. intros (a & r & [=]). }
  split; [reflexivity|]. intros (a & r & [=]).
Qed.

(** C8. For a linked requisition, [getTransactionsWithBalance] throws
    [AccountNotLinedToRequisition] exactly when the account is not in the
    requisition's list; when it is in the list, the requests for the
    transactions and for the balances are sent. *)
Theorem account_linkage_guard (requisitionId accountId startDate endDate : string)
    (σ σ' : State World) (requisition : Response Requisition.t) :
  getLinkedRequisition requisitionId σ = (Return requisition, σ') →
  (account_not_linked
     (fst (getTransactionsWithBalance requisitionId accountId startDate endDate σ))
   ↔ accountId ∉ Requisition.accounts (payload requisition))
  ∧ (accountId ∉ Requisition.accounts (payload requisition) →
       getTransactionsWithBalance requisitionId accountId startDate endDate σ
       = (Throw (AccountNotLinedToRequisition accountId requisitionId), σ'))
  ∧ (accountId ∈ Requisition.accounts (payload requisition) →
       getTransactionsWithBalance requisitionId accountId startDate endDate σ
       = reconcile (Requisition.institution_id (payload requisition))
           accountId startDate endDate σ'
       ∧ world (snd (getTransactionsWithBalance requisitionId accountId
                       startDate endDate σ))
         = world_after_requests nordigenClient accountId startDate endDate σ').
Proof.
  intros Hlinked.
  assert (getTransactionsWithBalance requisitionId accountId startDate endDate σ
          = if negb (bool_decide (accountId ∈ Requisition.accounts (payload requisition)))
            then (Throw (AccountNotLinedToRequisition accountId requisitionId), σ')
            else reconcile (Requisition.institution_id (payload requisition))
                   accountId startDate endDate σ') as ->.
  { unfold NordigenService.getTransactionsWithBalance.
    unfold mbind at 1, NordigenService.M_bind. rewrite Hlinked.
    destruct (negb _); reflexivity. }
  pose proof (reconcile_requests (Requisition.institution_id (payload requisition))
                accountId startDate endDate σ') as [Hworld Hown].
  destruct (bool_decide _) eqn:Hin; simpl.
  - apply bool_decide_eq_true in Hin. split; [|split].
    + split; [intros H; contradiction | intros H; contradiction].
    + intros H. contradiction.
    + intros _. split; [reflexivity | exact Hworld].
  - apply bool_decide_eq_false in Hin. split; [|split].
    + split; [intros _; exact Hin | intros _; do 2 eexists; reflexivity].
    + reflexivity.
    + intros H. contradiction.
Qed.
End ServiceGuards.

(** Requisition R2 of the example client is not linked: the three operations
    refuse it. Requisition R1 is linked and is returned as fetched. *)
Lemma link_status_guard_example :
  (NordigenService.getLinkedRequisition example_client "R2" example_start
   = (Throw (RequisitionNotLinked "CR"), Build_State (Some "token-0") 1%nat)
   ∧ NordigenService.getRequisitionWithAccounts example_client (λ _, example_bank)
       "R2" example_start
     = (Throw (RequisitionNotLinked "CR"), Build_State (Some "token-0") 1%nat)
   ∧ NordigenService.getTransactionsWithBalance example_client (λ _, example_bank)
       "R2" "A1" "2024-01-01" "2024-04-01" example_start
     = (Throw (RequisitionNotLinked "CR"), Build_State (Some "token-0") 1%nat))
  ∧ NordigenService.getLinkedRequisition example_client "R1" example_start
    = (Return (ok (example_requisition "R1")), Build_State (Some "token-0") 1%nat).
Proof.
  split.
  - apply (link_status_guard example_client (λ _, example_bank)
             "R2" "A1" "2024-01-01" "2024-04-01" example_start
             (Build_State (Some "token-0") 1%nat) (ok (example_requisition "R2"))).
    + reflexivity.
    + discriminate.
  - apply (link_status_guard example_client (λ _, example_bank)
             "R1" "A1" "2024-01-01" "2024-04-01" example_start
             (Build_State (Some "token-0") 1%nat) (ok (example_requisition "R1"))).
    + reflexivity.
    + reflexivity.
Defined.

(** The example of the specification: requisition R1 is linked to accounts
    A1 and A2. Account A3 is refused; for account A1 the requests are sent. *)
Lemma account_linkage_guard_example :
  NordigenService.getTransactionsWithBalance example_client (λ _, example_bank)
    "R1" "A3" "2024-01-01" "2024-04-01" example_start
  = (Throw (AccountNotLinedToRequisition "A3" "R1"), Build_State (Some "token-0") 1%nat)
  ∧ ¬ account_not_linked
        (fst (NordigenService.getTransactionsWithBalance example_client
                (λ _, example_bank) "R1" "A1" "2024-01-01" "2024-04-01" example_start)).
Proof.
  split.
  - apply (account_linkage_guard example_client (λ _, example_bank)
             "R1" "A3" "2024-01-01" "2024-04-01" example_start
             (Build_State (Some "token-0") 1%nat) (ok (example_requisition "R1"))).
    + reflexivity.
    + vm_compute. intros H.
      repeat (apply elem_of_cons in H as [H|H]; [discriminate|]).
      now apply elem_of_nil in H.
  - intros H.
    apply (account_linkage_guard example_client (λ _, example_bank)
             "R1" "A1" "2024-01-01" "2024-04-01" example_start
             (Build_State (Some "token-0") 1%nat) (ok (example_requisition "R1")))
      in H.
    + revert H. vm_compute. intros H. apply H.
      apply list_elem_of_here.
    + reflexivity.
Defined.

(** ** Token acquisition *)

Section TokenFetches.
Context {World : Type}.
Variable nordigenClient : Client World.

#[local] Abbreviation setToken := (NordigenService.setToken nordigenClient).
#[local] Abbreviation turn := (TokenCalls.turn nordigenClient).
#[local] Abbreviation run := (TokenCalls.run nordigenClient).
#[local] Abbreviation schedule_turn := (TokenCalls.schedule_turn nordigenClient).

(** A call that runs alone takes its two turns one after the other: this is
    [setToken] as the rest of the service uses it. *)
Lemma setToken_two_turns (σ : State World) :
  let '(σ1, c1, _) := turn σ TokenCalls.Called in
  let '(σ2, c2, _) := turn σ1 c1 in
  c2 = TokenCalls.Settled (fst (setToken σ)) ∧ σ2 = snd (setToken σ).
Proof.
  unfold NordigenService.setToken, TokenCalls.turn.
  destruct (negb (truthy (token σ))); [|split; reflexivity].
  destruct (generateToken nordigenClient (world σ)) as [tokenData w]. simpl.
  destruct (handleNordigenError tokenData) as [[]|e]; split; reflexivity.
Qed.

(** With a token cached, [setToken] calls nothing and changes nothing. *)
Lemma setToken_cached (σ : State World) :
  truthy (token σ) = true → setToken σ = (Return tt, σ).
Proof. intros H. unfold NordigenService.setToken. now rewrite H. Qed.

Lemma turn_after_first (σ : State World) (c : TokenCalls.call_state) :
  c ≠ TokenCalls.Called →
  snd (turn σ c) = false ∧ snd (fst (turn σ c)) ≠ TokenCalls.Called.
Proof.
  destruct c as [|tokenData|result]; [contradiction| |]; intros _; simpl.
  - destruct (handleNordigenError tokenData); simpl; split;
      [reflexivity | discriminate | reflexivity | discriminate].
  - split; [reflexivity | discriminate].
Qed.

(** Once every call has had its first turn, no further token is fetched. *)
Lemma run_without_new_calls (schedule : list nat) (s : TokenCalls.system) :
  Forall (λ c, c ≠ TokenCalls.Called) (TokenCalls.calls s) →
  TokenCalls.fetches (run schedule s) = TokenCalls.fetches s.
Proof.
  revert s. induction schedule as [|i schedule IH]; intros s Hcalls; [reflexivity|].
  unfold TokenCalls.run in *. simpl. rewrite IH; unfold TokenCalls.schedule_turn.
  - destruct (TokenCalls.calls s !! i) as [c|] eqn:Hi; [|reflexivity].
    pose proof (turn_after_first (TokenCalls.process s) c
                  (proj1 (Forall_lookup _ _) Hcalls i c Hi)) as [Hfetched _].
    destruct (TokenCalls.turn _ _ c) as [[σ c'] fetched]. simpl in *. now subst.
  - destruct (TokenCalls.calls s !! i) as [c|] eqn:Hi; [|exact Hcalls].
    pose proof (turn_after_first (TokenCalls.process s) c
                  (proj1 (Forall_lookup _ _) Hcalls i c Hi)) as [_ Hc'].
    destruct (TokenCalls.turn _ _ c) as [[σ c'] fetched]. simpl in *.
    now apply Forall_insert.
Qed.

(** The first turns of calls made while no token is cached: each one
    fetches. *)
Lemma first_turns_fetch (k : nat) (done : list TokenCalls.call_state)
    (σ : State World) (f : nat) (rest : list nat) :
  truthy (token σ) = false →
  Forall (λ c, c ≠ TokenCalls.Called) done →
  TokenCalls.fetches
    (run (seq (List.length done) k ++ rest)
       {| TokenCalls.process := σ;
          TokenCalls.calls := done ++ replicate k TokenCalls.Called;
          TokenCalls.fetches := f |})
  = (f + k)%nat.
Proof.
  revert done σ f. induction k as [|k IH]; intros done σ f Htoken Hdone.
  - simpl. rewrite run_without_new_calls; simpl; [lia|].
    now rewrite app_nil_r.
  - simpl. unfold TokenCalls.run. simpl. unfold TokenCalls.schedule_turn at 2. simpl.
    rewrite list_lookup_middle by reflexivity. simpl. rewrite Htoken. simpl.
    destruct (generateToken nordigenClient (world σ)) as [tokenData w].
    replace (<[List.length done := TokenCalls.Awaiting tokenData]>
               (done ++ TokenCalls.Called :: replicate k TokenCalls.Called)%list)
      with ((done ++ [TokenCalls.Awaiting tokenData]) ++ replicate k TokenCalls.Called)%list.
    2: { rewrite <- (Nat.add_0_r (List.length done)) at 1. rewrite insert_app_r. simpl.
         now rewrite <- app_assoc. }
    replace (S (List.length done)) with (List.length (done ++ [TokenCalls.Awaiting tokenData])%list)
      by (rewrite length_app; simpl; lia).
    fold (run (seq (List.length (done ++ [TokenCalls.Awaiting tokenData])%list) k ++ rest)%list
            {| TokenCalls.process := Build_State (token σ) w;
               TokenCalls.calls :=
                 (done ++ [TokenCalls.Awaiting tokenData]) ++ replicate k TokenCalls.Called;
               TokenCalls.fetches := S f |}).
    rewrite IH; [lia | exact Htoken |].
    apply Forall_app. split; [exact Hdone|]. constructor; [discriminate | constructor].
Qed.

(** C9, amended. A call of [setToken] made while a token is cached fetches
    nothing and leaves the token as it is. Of [n] calls made while no token is
    cached, each one calls [generateToken] in its first turn: when all of them
    start before any is answered, [n] tokens are fetched, however the
    answers are handled afterwards. *)
Theorem setToken_fetches_per_call :
  (∀ σ : State World, truthy (token σ) = true → setToken σ = (Return tt, σ))
  ∧ (∀ (n : nat) (σ : State World) (rest : list nat),
       truthy (token σ) = false →
       TokenCalls.fetches (run (seq 0 n ++ rest) (TokenCalls.started n σ)) = n).
Proof.
  split; [exact setToken_cached|].
  intros n σ rest Htoken.
  exact (first_turns_fetch n [] σ 0 rest Htoken (Forall_nil_2 _)).
Qed.
End TokenFetches.

(** Three calls made before any token is there, answered in another order:
    three tokens are fetched. *)
Lemma setToken_fetches_per_call_example :
  TokenCalls.fetches
    (TokenCalls.run example_client (seq 0 3 ++ [2; 0; 1]%nat)
       (TokenCalls.started 3 example_start)) = 3%nat.
Proof.
  apply (proj2 (setToken_fetches_per_call example_client) 3%nat example_start).
  reflexivity.
Defined.

(** Two calls made before any token is there: [generateToken] is called
    twice, and the token the first call cached is replaced by the one the
    second call fetched. *)
Lemma two_calls_fetch_twice :
  TokenCalls.fetches
    (TokenCalls.run example_client [0; 1; 0; 1]%nat (TokenCalls.started 2 example_start))
  = 2%nat
  ∧ TokenCalls.calls
      (TokenCalls.run example_client [0; 1; 0; 1]%nat (TokenCalls.started 2 example_start))
    = [TokenCalls.Settled (Return tt); TokenCalls.Settled (Return tt)]
  ∧ token (TokenCalls.process
             (TokenCalls.run example_client [0; 1; 0]%nat
                (TokenCalls.started 2 example_start)))
    = Some "token-0"
  ∧ token (TokenCalls.process
             (TokenCalls.run example_client [0; 1; 0; 1]%nat
                (TokenCalls.started 2 example_start)))
    = Some "token-1".
Proof. vm_compute. repeat split. Qed.

(** * Further properties of the adapters and of the service *)

(** ** Strings *)

Lemma append_empty (a : string) : "" ++ a = a.
Proof. reflexivity. Qed.

Lemma append_String (c : ascii) (p a : string) : String c p ++ a = String c (p ++ a).
Proof. reflexivity. Qed.

Lemma prefix_empty (s : string) : String.prefix "" s = true.
Proof. destruct s; reflexivity. Qed.

Lemma substring_whole (s : string) : String.substring 0 (String.length s) s = s.
Proof. induction s as [|c s IH]; simpl; [reflexivity | now rewrite IH]. Qed.

Lemma substring_from_0 (s : string) : substring_from 0 s = s.
Proof. unfold substring_from. rewrite Nat.sub_0_r. apply substring_whole. Qed.

Lemma substring_from_String (n : nat) (c : ascii) (s : string) :
  substring_from (S n) (String c s) = substring_from n s.
Proof. reflexivity. Qed.

Lemma substring_from_append (p a : string) :
  substring_from (String.length p) (p ++ a) = a.
Proof.
  induction p as [|c p IH].
  - rewrite append_empty. apply substring_from_0.
  - rewrite append_String. simpl String.length. now rewrite substring_from_String.
Qed.

Lemma startsWith_append (p a : string) : startsWith (p ++ a) p = true.
Proof.
  unfold startsWith. induction p as [|c p IH].
  - apply prefix_empty.
  - rewrite append_String. simpl. destruct (ascii_dec c c); [exact IH | contradiction].
Qed.

Lemma startsWith_split (s p : string) :
  startsWith s p = true → s = p ++ substring_from (String.length p) s.
Proof.
  unfold startsWith. revert s. induction p as [|c p IH]; intros s.
  - intros _. rewrite append_empty. symmetry. apply substring_from_0.
  - destruct s as [|d s]; [discriminate|]. simpl.
    destruct (ascii_dec c d) as [->|]; [|discriminate].
    intros H. rewrite append_String, substring_from_String. f_equal. exact (IH s H).
Qed.

Lemma length_append (a b : string) :
  String.length (a ++ b) = (String.length a + String.length b)%nat.
Proof.
  induction a as [|c a IH]; [reflexivity|].
  rewrite append_String. simpl. now rewrite IH.
Qed.

(** The text from position [n] on is what follows the first [n] characters. *)
Lemma substring_from_split (n : nat) (s : string) :
  (n ≤ String.length s)%nat →
  ∃ before, s = before ++ substring_from n s ∧ String.length before = n.
Proof.
  revert s. induction n as [|n IH]; intros s Hn.
  - exists "". split; [|reflexivity]. rewrite append_empty. symmetry. apply substring_from_0.
  - destruct s as [|c s]; [simpl in Hn; lia|].
    destruct (IH s) as (before & Hs & Hlen); [simpl in Hn; lia|].
    exists (String c before). split; [|simpl; now rewrite Hlen].
    rewrite append_String, substring_from_String. f_equal. exact Hs.
Qed.

Lemma slice_last_suffix (n : nat) (s : string) :
  ∃ before, s = before ++ slice_last n s
            ∧ String.length (slice_last n s) = Nat.min n (String.length s).
Proof.
  unfold slice_last.
  destruct (substring_from_split (String.length s - n) s) as (before & Hs & Hlen); [lia|].
  exists before. split; [exact Hs|].
  apply (f_equal String.length) in Hs. rewrite length_append, Hlen in Hs. lia.
Qed.

(** ** Normalized accounts *)

(** X1. [normalizeAccount] of BERLINER_SPARKASSE_BELADEBEXXX and of
    NORDEA_NDEADKKK throws a TypeError for an account without IBAN. For an
    account with one, the mask is the end of the IBAN, four characters long
    or the whole IBAN when that is shorter, and the display name is the
    account's name (nothing when it has none), a space, and the printed
    IBAN. *)
Theorem normalizeAccount_mask (printIban : Account.t → string) (account : Account.t) :
  (Account.iban account = None →
     BerlinerSparkasse.normalizeAccount printIban account = Throw (cannot_read "slice")
     ∧ NordeaNdeadkkk.normalizeAccount printIban account = Throw (cannot_read "slice"))
  ∧ (∀ iban, Account.iban account = Some iban →
       ∃ n before,
         BerlinerSparkasse.normalizeAccount printIban account = Return n
         ∧ NordeaNdeadkkk.normalizeAccount printIban account = Return n
         ∧ iban = before ++ NormalizedAccount.mask n
         ∧ String.length (NormalizedAccount.mask n) = Nat.min 4 (String.length iban)
         ∧ NormalizedAccount.name n
           = default "" (Account.name account) ++ " " ++ printIban account
         ∧ NormalizedAccount.iban n = Some iban
         ∧ NormalizedAccount.account_id n = Account.id account
         ∧ NormalizedAccount.official_name n = Account.product account
         ∧ NormalizedAccount.type n = "checking").
Proof.
  split.
  - intros Hiban. unfold BerlinerSparkasse.normalizeAccount, NordeaNdeadkkk.normalizeAccount.
    rewrite Hiban. split; reflexivity.
  - intros iban Hiban.
    destruct (slice_last_suffix 4 iban) as (before & Hsplit & Hlen).
    unfold BerlinerSparkasse.normalizeAccount, NordeaNdeadkkk.normalizeAccount.
    rewrite Hiban. eexists. exists before. simpl.
    repeat (split; [first [reflexivity | assumption]|]). reflexivity.
Qed.

(** ** ENTERCARD_SWEDNOKK *)

Lemma billed_frame (transaction : Transaction) (remittance : string) :
  valueDate (EntercardSwednokk.billed transaction remittance) = valueDate transaction
  ∧ transactionId (EntercardSwednokk.billed transaction remittance)
    = transactionId transaction.
Proof. unfold EntercardSwednokk.billed. destruct (startsWith _ _); split; reflexivity. Qed.

(** X2. When the unstructured remittance of a transaction is
    "billingAmount: " followed by a text, ENTERCARD_SWEDNOKK's
    [normalizeTransaction] returns that text as the amount, in SEK, whatever
    the amount and currency of the raw transaction were, with the date the
    formatter made of [valueDate]. *)
Theorem entercard_billed_amount
    (formatPayeeName : Transaction → option string)
    (format_parseISO : option string → outcome js_error string)
    (transaction : Transaction) (booked : bool) (billedAmount day : string) :
  remittanceInformationUnstructured transaction = Some ("billingAmount: " ++ billedAmount) →
  format_parseISO (valueDate transaction) = Return day →
  ∃ n, fst (EntercardSwednokk.normalizeTransaction formatPayeeName format_parseISO
              transaction booked) = Return (Some n)
       ∧ transactionAmount (fields n) = {| amount := billedAmount; currency := "SEK" |}
       ∧ date n = Some day
       ∧ transactionId (fields n) = transactionId transaction
       ∧ remittanceInformationUnstructured (fields n)
         = Some ("billingAmount: " ++ billedAmount).
Proof.
  intros Hremittance Hday. unfold EntercardSwednokk.normalizeTransaction.
  rewrite Hremittance. simpl fst.
  destruct (billed_frame transaction ("billingAmount: " ++ billedAmount)) as [Hvalue Hid].
  rewrite Hvalue, Hday. eexists. split; [reflexivity|]. simpl.
  rewrite billed_remittance, Hid, Hremittance.
  unfold EntercardSwednokk.billed. rewrite startsWith_append.
  change 15%nat with (String.length "billingAmount: ").
  rewrite substring_from_append. repeat split.
Qed.

Lemma entercard_billed_amount_example :
  ∃ n, fst (EntercardSwednokk.normalizeTransaction (λ _, None) example_format_parseISO
              (sample_transaction (Some "T1") "10.00" None None (Some "2024-03-01T08:00:00")
                 (Some ("billingAmount: " ++ "104.50")) None)
              true) = Return (Some n)
       ∧ transactionAmount (fields n) = {| amount := "104.50"; currency := "SEK" |}
       ∧ date n = Some "2024-03-01"
       ∧ transactionId (fields n) = Some "T1"
       ∧ remittanceInformationUnstructured (fields n)
         = Some ("billingAmount: " ++ "104.50").
Proof.
  apply (entercard_billed_amount (λ _, None) example_format_parseISO
           (sample_transaction (Some "T1") "10.00" None None (Some "2024-03-01T08:00:00")
              (Some ("billingAmount: " ++ "104.50")) None)
           true "104.50" "2024-03-01").
  - reflexivity.
  - reflexivity.
Defined.

(** X3. ENTERCARD_SWEDNOKK's [normalizeTransaction] throws a TypeError for a
    transaction without unstructured remittance and leaves it untouched; when
    the formatter rejects [valueDate] it throws what the formatter throws,
    after the amount of the transaction passed in has been replaced; for a
    remittance that does not start with "billingAmount: " the transaction
    is returned with its own amount. *)
Theorem entercard_normalizeTransaction_failures
    (formatPayeeName : Transaction → option string)
    (format_parseISO : option string → outcome js_error string)
    (transaction : Transaction) (booked : bool) :
  (remittanceInformationUnstructured transaction = None →
     EntercardSwednokk.normalizeTransaction formatPayeeName format_parseISO
       transaction booked
     = (Throw (cannot_read "startsWith"), transaction))
  ∧ (∀ remittance e,
       remittanceInformationUnstructured transaction = Some remittance →
       format_parseISO (valueDate transaction) = Throw e →
       EntercardSwednokk.normalizeTransaction formatPayeeName format_parseISO
         transaction booked
       = (Throw e, EntercardSwednokk.billed transaction remittance))
  ∧ (∀ remittance day,
       remittanceInformationUnstructured transaction = Some remittance →
       startsWith remittance "billingAmount: " = false →
       format_parseISO (valueDate transaction) = Return day →
       EntercardSwednokk.normalizeTransaction formatPayeeName format_parseISO
         transaction booked
       = (Return (Some {| fields := transaction;
                          payeeName := formatPayeeName transaction;
                          date := Some day |}),
          transaction)).
Proof.
  unfold EntercardSwednokk.normalizeTransaction. split; [|split].
  - intros H. now rewrite H.
  - intros remittance e Hr He. rewrite Hr.
    destruct (billed_frame transaction remittance) as [Hvalue _].
    now rewrite Hvalue, He.
  - intros remittance day Hr Hprefix Hday. rewrite Hr.
    unfold EntercardSwednokk.billed. rewrite Hprefix. now rewrite Hday.
Qed.

(** ** NORDEA_NDEADKKK and BELFIUS_GKCCBEBB *)

(** X4. NORDEA_NDEADKKK's [normalizeTransaction] never returns null. It
    throws a TypeError for a transaction without [transactionId], and for an
    identifier that does not start with P it returns every field as it came,
    dated by [bookingDate], else [valueDate]. *)
Theorem nordea_normalizeTransaction_outcomes
    (formatPayeeName : Transaction → option string)
    (transaction : Transaction) (booked : bool) :
  NordeaNdeadkkk.normalizeTransaction formatPayeeName transaction booked ≠ Return None
  ∧ (transactionId transaction = None →
       NordeaNdeadkkk.normalizeTransaction formatPayeeName transaction booked
       = Throw (cannot_read "startsWith"))
  ∧ (∀ tid, transactionId transaction = Some tid → startsWith tid "P" = false →
       ∃ n, NordeaNdeadkkk.normalizeTransaction formatPayeeName transaction booked
            = Return (Some n)
            ∧ fields n = transaction
            ∧ payeeName n = formatPayeeName transaction
            ∧ date n = match bookingDate transaction with
                       | Some (String c day) => Some (String c day)
                       | _ => valueDate transaction
                       end).
Proof.
  unfold NordeaNdeadkkk.normalizeTransaction. split; [|split].
  - destruct (transactionId transaction) as [tid|]; [|discriminate].
    destruct (startsWith tid "P"); discriminate.
  - intros H. now rewrite H.
  - intros tid Htid HP. rewrite Htid, HP. eexists. repeat split.
    simpl. unfold js_or. destruct (bookingDate transaction) as [[|c day]|]; reflexivity.
Qed.

(** X5. BELFIUS_GKCCBEBB's [normalizeTransaction] keeps every transaction.
    The identifier it returns is [internalTransactionId], so two transactions
    with different internal identifiers get different identifiers whatever
    their public ones, and a transaction without internal identifier is
    returned without identifier. Every other field of the transaction is as
    it came; no payee name is added; the date added is [bookingDate], or
    [valueDate] when there is no booking date. *)
Theorem belfius_normalizeTransaction_identifier
    (transaction other : Transaction) (booked : bool) :
  ∃ n m,
    BelfiusGkccbebb.normalizeTransaction transaction booked = Return (Some n)
    ∧ BelfiusGkccbebb.normalizeTransaction other booked = Return (Some m)
    ∧ transactionId (fields n) = internalTransactionId transaction
    ∧ (internalTransactionId transaction ≠ internalTransactionId other →
         transactionId (fields n) ≠ transactionId (fields m))
    ∧ (internalTransactionId transaction = None → transactionId (fields n) = None)
    ∧ transactionAmount (fields n) = transactionAmount transaction
    ∧ remittanceInformationUnstructured (fields n)
      = remittanceInformationUnstructured transaction
    ∧ creditorName (fields n) = creditorName transaction
    ∧ debtorName (fields n) = debtorName transaction
    ∧ internalTransactionId (fields n) = internalTransactionId transaction
    ∧ bookingDate (fields n) = bookingDate transaction
    ∧ bookingDateTime (fields n) = bookingDateTime transaction
    ∧ valueDate (fields n) = valueDate transaction
    ∧ valueDateTime (fields n) = valueDateTime transaction
    ∧ remittanceInformationStructured (fields n)
      = remittanceInformationStructured transaction
    ∧ remittanceInformationStructuredArray (fields n)
      = remittanceInformationStructuredArray transaction
    ∧ additionalInformation (fields n) = additionalInformation transaction
    ∧ ultimateCreditor (fields n) = ultimateCreditor transaction
    ∧ payeeName n = None
    ∧ (truthy (bookingDate transaction) = true → date n = bookingDate transaction)
    ∧ (truthy (bookingDate transaction) = false → date n = valueDate transaction).
Proof.
  do 2 eexists. unfold BelfiusGkccbebb.normalizeTransaction.
  split; [reflexivity|]. split; [reflexivity|]. simpl.
  repeat (split; [auto; fail|]). unfold js_or.
  split; intros ->; reflexivity.
Qed.

(** ** The default [normalizeTransaction] *)

Lemma truthy_js_or (a b : option string) :
  truthy (js_or a b) = truthy a || truthy b.
Proof. unfold js_or. destruct (truthy a) eqn:Ha; simpl; [exact Ha | reflexivity]. Qed.

(** X6. BERLINER_SPARKASSE_BELADEBEXXX's [normalizeTransaction] returns null
    exactly when none of [bookingDate], [bookingDateTime], [valueDate] and
    [valueDateTime] holds a non-empty text; it never throws. *)
Theorem berliner_dropped_iff (transaction : Transaction) (booked : bool) :
  (BerlinerSparkasse.normalizeTransaction transaction booked = Return None
   ↔ truthy (bookingDate transaction) = false
     ∧ truthy (bookingDateTime transaction) = false
     ∧ truthy (valueDate transaction) = false
     ∧ truthy (valueDateTime transaction) = false)
  ∧ ∀ e, BerlinerSparkasse.normalizeTransaction transaction booked ≠ Throw e.
Proof.
  unfold BerlinerSparkasse.normalizeTransaction. rewrite !truthy_js_or.
  destruct (truthy (bookingDate transaction)), (truthy (bookingDateTime transaction)),
    (truthy (valueDate transaction)), (truthy (valueDateTime transaction)); simpl;
    (split;
     [split;
      [intros H; first [discriminate | repeat split]
      | intros (H1 & H2 & H3 & H4); first [discriminate | reflexivity]]
     | intros e; discriminate]).
Qed.

(** X7. In a transaction BERLINER_SPARKASSE_BELADEBEXXX keeps, the creditor
    name is the first non-empty one of [ultimateCreditor], [creditorName] and
    [debtorName]; the identifiers, the amount, the dates, the structured
    remittance fields, [additionalInformation], [ultimateCreditor] and
    [debtorName] are as they came. *)
Theorem berliner_kept_fields (transaction : Transaction) (booked : bool)
    (n : NormalizedTransaction) :
  BerlinerSparkasse.normalizeTransaction transaction booked = Return (Some n) →
  creditorName (fields n)
  = match ultimateCreditor transaction, creditorName transaction with
    | Some (String c name), _ => Some (String c name)
    | _, Some (String c name) => Some (String c name)
    | _, _ => debtorName transaction
    end
  ∧ transactionId (fields n) = transactionId transaction
  ∧ internalTransactionId (fields n) = internalTransactionId transaction
  ∧ transactionAmount (fields n) = transactionAmount transaction
  ∧ bookingDate (fields n) = bookingDate transaction
  ∧ bookingDateTime (fields n) = bookingDateTime transaction
  ∧ valueDate (fields n) = valueDate transaction
  ∧ valueDateTime (fields n) = valueDateTime transaction
  ∧ remittanceInformationStructured (fields n)
    = remittanceInformationStructured transaction
  ∧ remittanceInformationStructuredArray (fields n)
    = remittanceInformationStructuredArray transaction
  ∧ additionalInformation (fields n) = additionalInformation transaction
  ∧ ultimateCreditor (fields n) = ultimateCreditor transaction
  ∧ debtorName (fields n) = debtorName transaction
  ∧ payeeName n = None.
Proof.
  unfold BerlinerSparkasse.normalizeTransaction.
  destruct (negb _); [discriminate|]. intros [= <-]. simpl.
  split; [|repeat split].
  unfold js_or.
  destruct (ultimateCreditor transaction) as [[|c u]|];
    destruct (creditorName transaction) as [[|d v]|]; reflexivity.
Qed.

Lemma berliner_kept_fields_example :
  creditorName
    (fields {| fields :=
                 with_creditor_and_remittance
                   (sample_transaction (Some "T1") "1.00" (Some "2024-03-01") None None
                      (Some "rent") None)
                   None (Some "rent");
               payeeName := None;
               date := Some "2024-03-01" |})
  = None.
Proof.
  apply (berliner_kept_fields
           (sample_transaction (Some "T1") "1.00" (Some "2024-03-01") None None
              (Some "rent") None) true).
  reflexivity.
Defined.

Lemma append_empty_r (a : string) : a ++ "" = a.
Proof.
  induction a as [|c a IH]; [reflexivity|]. rewrite append_String. now rewrite IH.
Qed.

(** The text appended for [additionalInformation]. *)
Lemma berliner_remittance_with_base (transaction : Transaction) (base : string) :
  BerlinerSparkasse.remittance_base transaction = Some base →
  BerlinerSparkasse.remittance_text transaction
  = Some (base ++ match additionalInformation transaction with
                  | Some (String c info) => " " ++ String c info
                  | _ => ""
                  end).
Proof.
  intros Hbase. unfold BerlinerSparkasse.remittance_text. rewrite Hbase.
  destruct (additionalInformation transaction) as [[|c info]|]; simpl;
    rewrite ?append_empty_r; reflexivity.
Qed.

(** X8. The remittance text of a transaction BERLINER_SPARKASSE_BELADEBEXXX
    keeps: the non-empty unstructured text, else the non-empty structured
    text, else the entries of a non-empty structured array joined by single
    spaces; a non-empty [additionalInformation] follows after a space. With no
    usable remittance field the text is absent, or, when there is
    [additionalInformation], starts with the word undefined. *)
Theorem berliner_remittance_table (transaction : Transaction) (booked : bool)
    (n : NormalizedTransaction) :
  BerlinerSparkasse.normalizeTransaction transaction booked = Return (Some n) →
  let additional :=
    match additionalInformation transaction with
    | Some (String c info) => " " ++ String c info
    | _ => ""
    end in
  remittanceInformationUnstructured (fields n)
  = match remittanceInformationUnstructured transaction,
          remittanceInformationStructured transaction,
          remittanceInformationStructuredArray transaction with
    | Some (String c text), _, _ => Some (String c text ++ additional)
    | _, Some (String c text), _ => Some (String c text ++ additional)
    | _, _, Some (entry :: entries) => Some (join " " (entry :: entries) ++ additional)
    | _, _, _ =>
        match additionalInformation transaction with
        | Some (String c info) => Some ("undefined" ++ additional)
        | _ => None
        end
    end.
Proof.
  intros Hkept additional. apply berliner_kept_transaction in Hkept as [_ ->].
  pose proof (berliner_remittance_base transaction) as Hbase.
  pose proof (berliner_remittance_with_base transaction) as Htext.
  fold additional in Htext.
  destruct (remittanceInformationUnstructured transaction) as [[|c u]|];
    destruct (remittanceInformationStructured transaction) as [[|d s]|];
    destruct (remittanceInformationStructuredArray transaction) as [[|x xs]|];
    try (apply Htext; exact Hbase).
  all: unfold BerlinerSparkasse.remittance_text; rewrite Hbase; subst additional.
  all: destruct (additionalInformation transaction) as [[|i info]|]; reflexivity.
Qed.

Lemma berliner_remittance_table_example :
  remittanceInformationUnstructured
    (fields {| fields :=
                 with_creditor_and_remittance
                   (sample_transaction (Some "T1") "1.00" (Some "2024-03-01") None None
                      (Some "rent") (Some "march"))
                   None (Some "rent march");
               payeeName := None;
               date := Some "2024-03-01" |})
  = Some "rent march".
Proof.
  apply (berliner_remittance_table
           (sample_transaction (Some "T1") "1.00" (Some "2024-03-01") None None
              (Some "rent") (Some "march")) true).
  reflexivity.
Defined.

(** ** More on the starting balance *)

Lemma entercard_calculateStartingBalance_unfold
    (amountToInteger : string → number) (amountToInteger_zero : number)
    (sortedTransactions : list Transaction) (balances : list Balance) :
  EntercardSwednokk.calculateStartingBalance amountToInteger amountToInteger_zero
    sortedTransactions balances
  = Return (foldl nsub
              match balances with
              | balance :: _ =>
                  if nonempty (amount (balanceAmount balance))
                  then amountToInteger (amount (balanceAmount balance))
                  else amountToInteger_zero
              | [] => amountToInteger_zero
              end
              (map (λ t, amountToInteger (amount (transactionAmount t)))
                   sortedTransactions)).
Proof.
  unfold EntercardSwednokk.calculateStartingBalance. f_equal.
  apply (reduce_subtracts (λ t, amountToInteger (amount (transactionAmount t)))).
Qed.

(** Integer amounts whose sizes, with the balance's, add up to a safe
    integer are taken off exactly, in whatever order they come. *)
Lemma foldl_nsub_rearranged (amounts rearranged : list number) (z : Z) (zs : list Z) :
  amounts ≡ₚ rearranged →
  amounts = map Num zs →
  (Z.abs z + total (map Z.abs zs) <= 9007199254740991)%Z →
  foldl nsub (Num z) amounts = Num (z - total zs)
  ∧ foldl nsub (Num z) rearranged = Num (z - total zs).
Proof.
  intros Hperm -> Hbound. split.
  - apply foldl_nsub_safe, running_balances_safe, Hbound.
  - symmetry in Hperm. apply Permutation_map_inv in Hperm as (zs' & -> & Hzs).
    rewrite (total_permutation _ _ Hzs).
    apply foldl_nsub_safe, running_balances_safe.
    now rewrite <- (total_permutation _ _ (Permutation_map Z.abs Hzs)).
Qed.

(** X9. The starting balance does not depend on the order of the
    transactions as long as the sizes of the balance and of the amounts, in
    minor units, add up to a safe integer: [calculateStartingBalance] of
    BERLINER_SPARKASSE_BELADEBEXXX and NORDEA_NDEADKKK, and that of
    ENTERCARD_SWEDNOKK when the balance comes first and its amount is not
    empty, give the same result, the balance minus the sum of the amounts,
    for a list and for any rearrangement of it. *)
Theorem calculateStartingBalance_order_irrelevant
    (amountToInteger : string → number) (amountToInteger_zero : number)
    (transactions rearranged : list Transaction)
    (before after : list Balance) (current : Balance) (z : Z) (zs : list Z) :
  transactions ≡ₚ rearranged →
  Forall (λ b, balanceType b ≠ "interimAvailable") before →
  balanceType current = "interimAvailable" →
  amountToInteger (amount (balanceAmount current)) = Num z →
  map (λ t, amountToInteger (amount (transactionAmount t))) transactions = map Num zs →
  (Z.abs z + total (map Z.abs zs) <= 9007199254740991)%Z →
  (BerlinerSparkasse.calculateStartingBalance amountToInteger transactions
     (before ++ current :: after) = Return (Num (z - total zs))
   ∧ BerlinerSparkasse.calculateStartingBalance amountToInteger rearranged
       (before ++ current :: after) = Return (Num (z - total zs)))
  ∧ (NordeaNdeadkkk.calculateStartingBalance amountToInteger transactions
       (before ++ current :: after) = Return (Num (z - total zs))
     ∧ NordeaNdeadkkk.calculateStartingBalance amountToInteger rearranged
         (before ++ current :: after) = Return (Num (z - total zs)))
  ∧ (nonempty (amount (balanceAmount current)) = true →
     EntercardSwednokk.calculateStartingBalance amountToInteger amountToInteger_zero
       transactions (current :: after) = Return (Num (z - total zs))
     ∧ EntercardSwednokk.calculateStartingBalance amountToInteger amountToInteger_zero
         rearranged (current :: after) = Return (Num (z - total zs))).
Proof.
  intros Hperm Hbefore Hcurrent Hz Hzs Hbound.
  destruct (foldl_nsub_rearranged
              (map (λ t, amountToInteger (amount (transactionAmount t))) transactions)
              (map (λ t, amountToInteger (amount (transactionAmount t))) rearranged)
              z zs) as [Hlist Hrearranged]; [now apply fmap_Permutation | exact Hzs | exact Hbound |].
  assert (BerlinerSparkasse.calculateStartingBalance amountToInteger transactions
            (before ++ current :: after) = Return (Num (z - total zs))
          ∧ BerlinerSparkasse.calculateStartingBalance amountToInteger rearranged
              (before ++ current :: after) = Return (Num (z - total zs))) as H.
  { rewrite !calculateStartingBalance_unfold.
    rewrite (find_first_interimAvailable _ _ _ Hbefore Hcurrent), Hz.
    now rewrite Hlist, Hrearranged. }
  split; [exact H | split; [exact H|]].
  intros Hamount. rewrite !entercard_calculateStartingBalance_unfold, Hamount, Hz.
  now rewrite Hlist, Hrearranged.
Qed.

Lemma calculateStartingBalance_order_irrelevant_example :
  BerlinerSparkasse.calculateStartingBalance amountToInteger_decimal
    [sample_transaction (Some "T1") "-5.00" None None None None None;
     sample_transaction (Some "T2") "2.00" None None None None None]
    ([] ++ sample_balance "interimAvailable" "1000.00" :: [])
  = Return (Num 100300)
  ∧ BerlinerSparkasse.calculateStartingBalance amountToInteger_decimal
      [sample_transaction (Some "T2") "2.00" None None None None None;
       sample_transaction (Some "T1") "-5.00" None None None None None]
      ([] ++ sample_balance "interimAvailable" "1000.00" :: [])
    = Return (Num 100300).
Proof.
  edestruct (calculateStartingBalance_order_irrelevant amountToInteger_decimal (Num 0)
               [sample_transaction (Some "T1") "-5.00" None None None None None;
                sample_transaction (Some "T2") "2.00" None None None None None]
               [sample_transaction (Some "T2") "2.00" None None None None None;
                sample_transaction (Some "T1") "-5.00" None None None None None]
               [] [] (sample_balance "interimAvailable" "1000.00") 100000 [-500; 200])
    as [H _].
  - apply Permutation_swap.
  - constructor.
  - reflexivity.
  - reflexivity.
  - reflexivity.
  - simpl. lia.
  - exact H.
Defined.

(** Past the safe integers the order does matter: a balance of 1 minor unit
    with amounts of -9007199254740992 and 1 gives 9007199254740991, and
    9007199254740992 with the amounts the other way round. *)
Lemma calculateStartingBalance_order_matters :
  BerlinerSparkasse.calculateStartingBalance amountToInteger_decimal
    [sample_transaction (Some "T1") "-90071992547409.92" None None None None None;
     sample_transaction (Some "T2") "0.01" None None None None None]
    [sample_balance "interimAvailable" "0.01"]
  = Return (Num 9007199254740991)
  ∧ BerlinerSparkasse.calculateStartingBalance amountToInteger_decimal
      [sample_transaction (Some "T2") "0.01" None None None None None;
       sample_transaction (Some "T1") "-90071992547409.92" None None None None None]
      [sample_balance "interimAvailable" "0.01"]
    = Return (Num 9007199254740992).
Proof. vm_compute. split; reflexivity. Qed.

(** X10. An amount that [amountToInteger] does not read as a number, in the
    balance or in any transaction, does not make the default
    [calculateStartingBalance] throw: it returns NaN. *)
Theorem calculateStartingBalance_not_numeric
    (amountToInteger : string → number) (sortedTransactions : list Transaction)
    (before after : list Balance) (current : Balance) :
  Forall (λ b, balanceType b ≠ "interimAvailable") before →
  balanceType current = "interimAvailable" →
  amountToInteger (amount (balanceAmount current)) = NaN
  ∨ (∃ t, t ∈ sortedTransactions ∧ amountToInteger (amount (transactionAmount t)) = NaN) →
  BerlinerSparkasse.calculateStartingBalance amountToInteger sortedTransactions
    (before ++ current :: after) = Return NaN
  ∧ NordeaNdeadkkk.calculateStartingBalance amountToInteger sortedTransactions
      (before ++ current :: after) = Return NaN.
Proof.
  intros Hbefore Hcurrent Hnan.
  assert (BerlinerSparkasse.calculateStartingBalance amountToInteger sortedTransactions
            (before ++ current :: after) = Return NaN) as H.
  { rewrite calculateStartingBalance_unfold.
    rewrite (find_first_interimAvailable _ _ _ Hbefore Hcurrent).
    destruct Hnan as [Hbalance | (t & Hin & Ht)].
    - now rewrite Hbalance, foldl_nsub_NaN.
    - rewrite (foldl_nsub_not_numeric (map _ sortedTransactions)); [reflexivity|].
      rewrite <- Ht.
      apply (list_elem_of_fmap_2 (λ t, amountToInteger (amount (transactionAmount t)))).
      exact Hin. }
  split; exact H.
Qed.

Lemma calculateStartingBalance_not_numeric_example :
  BerlinerSparkasse.calculateStartingBalance amountToInteger_decimal
    [sample_transaction (Some "T1") "-5.00" None None None None None;
     sample_transaction (Some "T2") "n/a" None None None None None]
    ([sample_balance "expected" "7.00"]
     ++ sample_balance "interimAvailable" "1000.00" :: [])
  = Return NaN
  ∧ NordeaNdeadkkk.calculateStartingBalance amountToInteger_decimal
      [sample_transaction (Some "T1") "-5.00" None None None None None;
       sample_transaction (Some "T2") "n/a" None None None None None]
      ([sample_balance "expected" "7.00"]
       ++ sample_balance "interimAvailable" "1000.00" :: [])
    = Return NaN.
Proof.
  apply (calculateStartingBalance_not_numeric amountToInteger_decimal).
  - constructor; [discriminate | constructor].
  - reflexivity.
  - right. exists (sample_transaction (Some "T2") "n/a" None None None None None).
    split; [|reflexivity]. apply list_elem_of_further, list_elem_of_here.
Defined.

(** X11. ENTERCARD_SWEDNOKK's [calculateStartingBalance] reads the first
    balance only, whatever its type and whatever follows it. With integer
    amounts that keep the balance a safe integer, the result is the first
    balance's amount minus the sum of the transactions' amounts, also where
    the default one throws because no balance is of type "interimAvailable";
    and [amountToInteger(0)] takes the place of the amount when there is no
    balance or when the first one's amount is empty. *)
Theorem entercard_calculateStartingBalance_first_balance
    (amountToInteger : string → number) (amountToInteger_zero : number)
    (sortedTransactions : list Transaction) (zs : list Z) :
  map (λ t, amountToInteger (amount (transactionAmount t))) sortedTransactions
    = map Num zs →
  (∀ first rest z,
     nonempty (amount (balanceAmount first)) = true →
     amountToInteger (amount (balanceAmount first)) = Num z →
     Forall safe_integer (running_balances z zs) →
     EntercardSwednokk.calculateStartingBalance amountToInteger amountToInteger_zero
       sortedTransactions (first :: rest) = Return (Num (z - total zs))
     ∧ (Forall (λ b, balanceType b ≠ "interimAvailable") (first :: rest) →
        BerlinerSparkasse.calculateStartingBalance amountToInteger sortedTransactions
          (first :: rest) = Throw (cannot_read "balanceAmount")))
  ∧ (∀ balances z,
       match balances with
       | first :: _ => nonempty (amount (balanceAmount first)) = false
       | [] => True
       end →
       amountToInteger_zero = Num z →
       Forall safe_integer (running_balances z zs) →
       EntercardSwednokk.calculateStartingBalance amountToInteger amountToInteger_zero
         sortedTransactions balances = Return (Num (z - total zs)))
  ∧ BerlinerSparkasse.calculateStartingBalance amountToInteger sortedTransactions []
    = Throw (cannot_read "balanceAmount").
Proof.
  intros Hzs. split; [|split].
  - intros first rest z Hamount Hz Hsafe. split.
    + rewrite entercard_calculateStartingBalance_unfold, Hamount, Hz, Hzs.
      now rewrite foldl_nsub_safe.
    + intros Hnone. apply find_interimAvailable_none in Hnone.
      now rewrite calculateStartingBalance_unfold, Hnone.
  - intros balances z Hempty Hz Hsafe.
    rewrite entercard_calculateStartingBalance_unfold, Hzs.
    destruct balances as [|first rest]; [|rewrite Hempty]; rewrite Hz.
    all: now rewrite foldl_nsub_safe.
  - reflexivity.
Qed.

Lemma entercard_calculateStartingBalance_first_balance_example :
  EntercardSwednokk.calculateStartingBalance amountToInteger_decimal (Num 0)
    [sample_transaction (Some "T1") "-5.00" None None None None None;
     sample_transaction (Some "T2") "2.00" None None None None None]
    [sample_balance "expected" "1000.00"]
  = Return (Num 100300)
  ∧ (Forall (λ b, balanceType b ≠ "interimAvailable") [sample_balance "expected" "1000.00"] →
     BerlinerSparkasse.calculateStartingBalance amountToInteger_decimal
       [sample_transaction (Some "T1") "-5.00" None None None None None;
        sample_transaction (Some "T2") "2.00" None None None None None]
       [sample_balance "expected" "1000.00"]
     = Throw (cannot_read "balanceAmount")).
Proof.
  edestruct (entercard_calculateStartingBalance_first_balance amountToInteger_decimal
               (Num 0)
               [sample_transaction (Some "T1") "-5.00" None None None None None;
                sample_transaction (Some "T2") "2.00" None None None None None]
               [-500; 200]) as [H _].
  - reflexivity.
  - apply (H (sample_balance "expected" "1000.00") [] 100000).
    + reflexivity.
    + reflexivity.
    + repeat constructor; simpl; lia.
Defined.

(** X12. When the first balance is of type "interimAvailable" and its amount
    is not empty, ENTERCARD_SWEDNOKK's [calculateStartingBalance] and the
    default one give the same result. *)
Theorem entercard_agrees_with_default
    (amountToInteger : string → number) (amountToInteger_zero : number)
    (sortedTransactions : list Transaction) (first : Balance) (rest : list Balance) :
  balanceType first = "interimAvailable" →
  nonempty (amount (balanceAmount first)) = true →
  EntercardSwednokk.calculateStartingBalance amountToInteger amountToInteger_zero
    sortedTransactions (first :: rest)
  = BerlinerSparkasse.calculateStartingBalance amountToInteger sortedTransactions
      (first :: rest).
Proof.
  intros Htype Hamount.
  rewrite entercard_calculateStartingBalance_unfold, calculateStartingBalance_unfold.
  rewrite Hamount.
  change (first :: rest) with ([] ++ first :: rest)%list.
  now rewrite (find_first_interimAvailable [] rest first (Forall_nil_2 _) Htype).
Qed.

Lemma entercard_agrees_with_default_example :
  EntercardSwednokk.calculateStartingBalance amountToInteger_decimal (Num 0)
    [sample_transaction (Some "T1") "-5.00" None None None None None]
    (sample_balance "interimAvailable" "1000.00" :: [sample_balance "expected" "1.00"])
  = BerlinerSparkasse.calculateStartingBalance amountToInteger_decimal
      [sample_transaction (Some "T1") "-5.00" None None None None None]
      (sample_balance "interimAvailable" "1000.00" :: [sample_balance "expected" "1.00"]).
Proof.
  apply (entercard_agrees_with_default amountToInteger_decimal (Num 0)).
  - reflexivity.
  - reflexivity.
Defined.

(** ** The token and the requests that need it *)

Section TokenUse.
Context {World : Type}.
Variable nordigenClient : Client World.
Variable BankFactory : string → Bank.t.
Variable uuid_v4 : World → string * World.

#[local] Abbreviation setToken := (NordigenService.setToken nordigenClient).
#[local] Abbreviation getRequisition := (NordigenService.getRequisition nordigenClient).
#[local] Abbreviation getLinkedRequisition :=
  (NordigenService.getLinkedRequisition nordigenClient).
#[local] Abbreviation getRequisitionWithAccounts :=
  (NordigenService.getRequisitionWithAccounts nordigenClient BankFactory).
#[local] Abbreviation getTransactionsWithBalance :=
  (NordigenService.getTransactionsWithBalance nordigenClient BankFactory).
#[local] Abbreviation createRequisition :=
  (NordigenService.createRequisition nordigenClient uuid_v4).
#[local] Abbreviation deleteRequisition :=
  (NordigenService.deleteRequisition nordigenClient).

Lemma setToken_fetch (σ : State World) (tokenData : Response TokenData) (w : World) :
  truthy (token σ) = false →
  generateToken nordigenClient (world σ) = (tokenData, w) →
  setToken σ
  = match handleNordigenError tokenData with
    | Throw e => (Throw e, Build_State (token σ) w)
    | Return _ => (Return tt, Build_State (access (payload tokenData)) w)
    end.
Proof.
  intros Htoken Hfetch. unfold NordigenService.setToken. now rewrite Htoken, Hfetch.
Qed.

Lemma getRequisition_stops (requisitionId : string) (σ σ' : State World) (e : error) :
  setToken σ = (Throw e, σ') → getRequisition requisitionId σ = (Throw e, σ').
Proof.
  intros H. unfold NordigenService.getRequisition.
  unfold mbind at 1, NordigenService.M_bind. now rewrite H.
Qed.

Lemma getLinkedRequisition_stops (requisitionId : string) (σ σ' : State World)
    (e : error) :
  getRequisition requisitionId σ = (Throw e, σ') →
  getLinkedRequisition requisitionId σ = (Throw e, σ').
Proof.
  intros H. unfold NordigenService.getLinkedRequisition.
  unfold mbind at 1, NordigenService.M_bind. now rewrite H.
Qed.

(** X13. When no token is cached and the answer to [generateToken] carries a
    status code of the taxonomy, every operation of the service that needs
    the token throws that error; the token request is the only request made,
    and no token is cached. *)
Theorem token_failure_stops_operations
    (requisitionId accountId startDate endDate institutionId host : string)
    (accessValidForDays : Z)
    (σ : State World) (tokenData : Response TokenData) (w : World) (e : error) :
  truthy (token σ) = false →
  generateToken nordigenClient (world σ) = (tokenData, w) →
  handleNordigenError tokenData = Throw e →
  let σ' := Build_State (token σ) w in
  setToken σ = (Throw e, σ')
  ∧ getRequisition requisitionId σ = (Throw e, σ')
  ∧ getLinkedRequisition requisitionId σ = (Throw e, σ')
  ∧ getRequisitionWithAccounts requisitionId σ = (Throw e, σ')
  ∧ getTransactionsWithBalance requisitionId accountId startDate endDate σ = (Throw e, σ')
  ∧ createRequisition institutionId accessValidForDays host σ = (Throw e, σ')
  ∧ deleteRequisition requisitionId σ = (Throw e, σ').
Proof.
  intros Htoken Hfetch He σ'.
  assert (setToken σ = (Throw e, σ')) as Hset.
  { rewrite (setToken_fetch _ _ _ Htoken Hfetch). now rewrite He. }
  pose proof (getRequisition_stops requisitionId _ _ _ Hset) as Hget.
  pose proof (getLinkedRequisition_stops requisitionId _ _ _ Hget) as Hlinked.
  destruct (operations_stop_when_not_linked nordigenClient BankFactory requisitionId
              accountId startDate endDate _ _ _ Hlinked) as [Haccounts Hbalance].
  repeat (split; [assumption|]). split.
  - unfold NordigenService.createRequisition.
    unfold mbind at 1, NordigenService.M_bind. now rewrite Hset.
  - unfold NordigenService.deleteRequisition.
    unfold mbind at 1, NordigenService.M_bind. now rewrite Hget.
Qed.

(** X14. [getRequisition] asks for the requisition with the token that
    [setToken] left in the client, fetched or cached. An answer without a
    status code of the taxonomy is returned as it is; one with such a code
    makes the call throw, and the token stays cached. *)
Theorem getRequisition_uses_token (requisitionId : string) (σ σ1 : State World)
    (response : Response Requisition.t) (w : World) :
  setToken σ = (Return tt, σ1) →
  getRequisitionById nordigenClient requisitionId (token σ1) (world σ1) = (response, w) →
  getRequisition requisitionId σ
  = (match handleNordigenError response with
     | Return _ => Return response
     | Throw e => Throw e
     end,
     Build_State (token σ1) w).
Proof.
  intros Hset Hget. unfold NordigenService.getRequisition.
  unfold mbind at 1, NordigenService.M_bind. rewrite Hset.
  unfold mbind at 1, NordigenService.M_bind, NordigenService.call. rewrite Hget.
  unfold mbind, mret, NordigenService.M_bind, NordigenService.M_ret, NordigenService.lift.
  destruct (handleNordigenError response) as [[]|e]; reflexivity.
Qed.

(** X15. [deleteRequisition] sends the delete request only after the
    requisition has been fetched: when fetching it throws, that is the error
    and nothing else is requested. A fetched requisition is deleted whatever
    its status, and the answer to the delete request is returned unless it
    carries a status code of the taxonomy. *)
Theorem deleteRequisition_after_fetch (requisitionId : string) (σ : State World) :
  (∀ e σ', getRequisition requisitionId σ = (Throw e, σ') →
           deleteRequisition requisitionId σ = (Throw e, σ'))
  ∧ (∀ requisition σ1 response w,
       getRequisition requisitionId σ = (Return requisition, σ1) →
       deleteRequisitionById nordigenClient requisitionId (token σ1) (world σ1)
       = (response, w) →
       deleteRequisition requisitionId σ
       = (match handleNordigenError response with
          | Return _ => Return response
          | Throw e => Throw e
          end,
          Build_State (token σ1) w)).
Proof.
  split.
  - intros e σ' Hget. unfold NordigenService.deleteRequisition.
    unfold mbind at 1, NordigenService.M_bind. now rewrite Hget.
  - intros requisition σ1 response w Hget Hdelete.
    unfold NordigenService.deleteRequisition.
    unfold mbind at 1, NordigenService.M_bind. rewrite Hget.
    unfold mbind at 1, NordigenService.M_bind, NordigenService.call. rewrite Hdelete.
    unfold mbind, mret, NordigenService.M_bind, NordigenService.M_ret, NordigenService.lift.
    destruct (handleNordigenError response) as [[]|e]; reflexivity.
Qed.

(** X16. An answer to [generateToken] that has no status code of the
    taxonomy and no token is accepted: [setToken] returns, nothing usable is
    cached, and the next call of [setToken] asks for a token again. *)
Theorem setToken_without_token (σ : State World) (tokenData : Response TokenData)
    (w : World) :
  truthy (token σ) = false →
  generateToken nordigenClient (world σ) = (tokenData, w) →
  handleNordigenError tokenData = Return tt →
  truthy (access (payload tokenData)) = false →
  ∃ σ1, setToken σ = (Return tt, σ1)
        ∧ truthy (token σ1) = false
        ∧ world σ1 = w
        ∧ world (snd (setToken σ1)) = snd (generateToken nordigenClient w).
Proof.
  intros Htoken Hfetch Hok Haccess. eexists. split; [|split; [|split]].
  - rewrite (setToken_fetch _ _ _ Htoken Hfetch). now rewrite Hok.
  - exact Haccess.
  - reflexivity.
  - unfold NordigenService.setToken. simpl. rewrite Haccess. simpl.
    destruct (generateToken nordigenClient w) as [tokenData' w'].
    destruct (handleNordigenError tokenData'); reflexivity.
Qed.
End TokenUse.

Lemma token_failure_stops_operations_example :
  NordigenService.setToken unauthorized_client example_start
  = (Throw InvalidNordigenTokenError, Build_State None 1%nat)
  ∧ NordigenService.getRequisition unauthorized_client "R1" example_start
    = (Throw InvalidNordigenTokenError, Build_State None 1%nat)
  ∧ NordigenService.getLinkedRequisition unauthorized_client "R1" example_start
    = (Throw InvalidNordigenTokenError, Build_State None 1%nat)
  ∧ NordigenService.getRequisitionWithAccounts unauthorized_client (λ _, example_bank)
      "R1" example_start
    = (Throw InvalidNordigenTokenError, Build_State None 1%nat)
  ∧ NordigenService.getTransactionsWithBalance unauthorized_client (λ _, example_bank)
      "R1" "A1" "2024-01-01" "2024-04-01" example_start
    = (Throw InvalidNordigenTokenError, Build_State None 1%nat)
  ∧ NordigenService.createRequisition unauthorized_client example_uuid
      "SANDBOXFINANCE_SFIN0000" 90 "https://budget.example" example_start
    = (Throw InvalidNordigenTokenError, Build_State None 1%nat)
  ∧ NordigenService.deleteRequisition unauthorized_client "R1" example_start
    = (Throw InvalidNordigenTokenError, Build_State None 1%nat).
Proof.
  apply (token_failure_stops_operations unauthorized_client (λ _, example_bank)
           example_uuid "R1" "A1" "2024-01-01" "2024-04-01" "SANDBOXFINANCE_SFIN0000"
           "https://budget.example" 90 example_start
           {| status_code := Some 401; payload := {| access := None |} |} 1%nat
           InvalidNordigenTokenError).
  - reflexivity.
  - reflexivity.
  - reflexivity.
Defined.

Lemma getRequisition_uses_token_example :
  NordigenService.getRequisition example_client "R2" example_start
  = (Return (ok (example_requisition "R2")), Build_State (Some "token-0") 1%nat).
Proof.
  apply (getRequisition_uses_token example_client "R2" example_start
           (Build_State (Some "token-0") 1%nat) (ok (example_requisition "R2")) 1%nat).
  - reflexivity.
  - reflexivity.
Defined.

Lemma setToken_without_token_example :
  ∃ σ1, NordigenService.setToken tokenless_client example_start = (Return tt, σ1)
        ∧ truthy (token σ1) = false
        ∧ world σ1 = 1%nat
        ∧ world (snd (NordigenService.setToken tokenless_client σ1))
          = snd (generateToken tokenless_client 1%nat).
Proof.
  apply (setToken_without_token tokenless_client example_start (ok {| access := None |})).
  - reflexivity.
  - reflexivity.
  - reflexivity.
  - reflexivity.
Defined.

(** ** Accounts and institutions *)

Lemma assign_accessor (acc : dictionary) (key : string)
    (institution : Response Institution.t) :
  key = "__proto__" →
  assign acc key institution = {| own := own acc; prototype := Some institution |}.
Proof. now intros ->. Qed.

Lemma assign_property (acc : dictionary) (key : string)
    (institution : Response Institution.t) :
  key ≠ "__proto__" →
  assign acc key institution
  = {| own := <[key := institution]> (own acc); prototype := prototype acc |}.
Proof. intros H. unfold assign. now destruct (String.eqb_spec key "__proto__"). Qed.

(** The properties of its own that the dictionary built by the assignments
    has: for a key other than [__proto__], an entry is one of the institutions
    with that identifier or was there before. *)
Lemma institutionsById_own (institutions : list (Response Institution.t))
    (initial : dictionary) (k : string) :
  let institutionsById :=
    foldl (λ acc institution, assign acc (Institution.id (payload institution)) institution)
          initial institutions in
  (∀ v, own institutionsById !! k = Some v
        → (v ∈ institutions ∧ Institution.id (payload v) = k) ∨ own initial !! k = Some v)
  ∧ (own institutionsById !! k = None
     ↔ own initial !! k = None
       ∧ ∀ v, v ∈ institutions → Institution.id (payload v) ≠ k ∨ k = "__proto__").
Proof.
  revert initial. induction institutions as [|entry entries IH]; intros initial; simpl.
  - split; [intros v Hv; now right|].
    split; [intros H; split; [exact H | intros v Hv; now apply elem_of_nil in Hv]|].
    now intros [H _].
  - destruct (decide (Institution.id (payload entry) = "__proto__")) as [Hproto|Hproto];
      [rewrite (assign_accessor _ _ _ Hproto) | rewrite (assign_property _ _ _ Hproto)].
    all: lazymatch goal with
         | |- context [foldl _ ?d _] => destruct (IH d) as [IHsome IHnone]
         end.
    all: simpl in IHsome, IHnone.
    + split.
      * intros v Hv. destruct (IHsome v Hv) as [[Hin Hkey]|Hinitial]; [left | now right].
        split; [now apply list_elem_of_further | exact Hkey].
      * rewrite IHnone. split; intros [Hinitial Hrest]; (split; [exact Hinitial|]).
        -- intros v Hv. apply elem_of_cons in Hv as [->|Hv]; [|now apply Hrest].
           destruct (decide (k = "__proto__")) as [Hk|Hk]; [now right | left].
           congruence.
        -- intros v Hv. apply Hrest. now apply list_elem_of_further.
    + split.
      * intros v Hv. destruct (IHsome v Hv) as [[Hin Hkey]|Hinitial].
        -- left. split; [now apply list_elem_of_further | exact Hkey].
        -- destruct (decide (Institution.id (payload entry) = k)) as [Heq|Hne].
           ++ rewrite Heq, lookup_insert_eq in Hinitial. injection Hinitial as <-.
              left. split; [apply list_elem_of_here | exact Heq].
           ++ rewrite lookup_insert_ne in Hinitial by exact Hne. now right.
      * rewrite IHnone. split.
        -- intros [Hinitial Hrest].
           destruct (decide (Institution.id (payload entry) = k)) as [Heq|Hne].
           ++ rewrite Heq, lookup_insert_eq in Hinitial. discriminate.
           ++ rewrite lookup_insert_ne in Hinitial by exact Hne.
              split; [exact Hinitial|]. intros v Hv.
              apply elem_of_cons in Hv as [->|Hv]; [now left | now apply Hrest].
        -- intros [Hinitial Hall]. split.
           ++ rewrite lookup_insert_ne; [exact Hinitial|].
              destruct (Hall entry (list_elem_of_here _ _)) as [Hne| ->];
                [exact Hne | exact Hproto].
           ++ intros v Hv. apply Hall. now apply list_elem_of_further.
Qed.

(** Its prototype: an institution whose identifier is [__proto__], when there
    is one. *)
Lemma institutionsById_prototype (institutions : list (Response Institution.t))
    (initial : dictionary) :
  let institutionsById :=
    foldl (λ acc institution, assign acc (Institution.id (payload institution)) institution)
          initial institutions in
  (∀ v, prototype institutionsById = Some v
        → (v ∈ institutions ∧ Institution.id (payload v) = "__proto__")
          ∨ prototype initial = Some v)
  ∧ (prototype institutionsById = None
     ↔ prototype initial = None
       ∧ ∀ v, v ∈ institutions → Institution.id (payload v) ≠ "__proto__").
Proof.
  revert initial. induction institutions as [|entry entries IH]; intros initial; simpl.
  - split; [intros v Hv; now right|].
    split; [intros H; split; [exact H | intros v Hv; now apply elem_of_nil in Hv]|].
    now intros [H _].
  - destruct (decide (Institution.id (payload entry) = "__proto__")) as [Hproto|Hproto];
      [rewrite (assign_accessor _ _ _ Hproto) | rewrite (assign_property _ _ _ Hproto)].
    all: lazymatch goal with
         | |- context [foldl _ ?d _] => destruct (IH d) as [IHsome IHnone]
         end.
    all: simpl in IHsome, IHnone.
    + split.
      * intros v Hv. destruct (IHsome v Hv) as [[Hin Hkey]|Hinitial].
        -- left. split; [now apply list_elem_of_further | exact Hkey].
        -- injection Hinitial as <-. left. split; [apply list_elem_of_here | exact Hproto].
      * rewrite IHnone. split; [now intros [? _]|].
        intros [_ Hall]. now destruct (Hall entry (list_elem_of_here _ _)).
    + split.
      * intros v Hv. destruct (IHsome v Hv) as [[Hin Hkey]|Hinitial]; [left | now right].
        split; [now apply list_elem_of_further | exact Hkey].
      * rewrite IHnone. split; intros [Hinitial Hrest]; (split; [exact Hinitial|]).
        -- intros v Hv. apply elem_of_cons in Hv as [->|Hv]; [exact Hproto | now apply Hrest].
        -- intros v Hv. apply Hrest. now apply list_elem_of_further.
Qed.

Lemma or_null_Some (found : option attachment) (value : attachment) :
  match found with
  | Some value => if truthy_attachment value then Some value else None
  | None => None
  end = Some value →
  found = Some value.
Proof.
  destruct found as [v|]; [|discriminate].
  destruct (truthy_attachment v); [now intros [= ->] | discriminate].
Qed.

Lemma institution_property_field (institution : Response Institution.t) (key : string)
    (value : attachment) :
  institution_property institution key = Some value →
  match value with OfText _ | OfNumber _ => True | _ => False end.
Proof.
  unfold institution_property.
  destruct (String.eqb key "id"); [now intros [= <-]|].
  destruct (String.eqb key "name");
    [destruct (Institution.name (payload institution)); [now intros [= <-] | discriminate]|].
  destruct (String.eqb key "status_code"); [|discriminate].
  destruct (status_code institution); [now intros [= <-] | discriminate].
Qed.

Lemma inherited_function (key : string) (value : attachment) :
  inherited key = Some value → value = OfFunction key.
Proof. unfold inherited. destruct (bool_decide _); [now intros [= <-] | discriminate]. Qed.

(** What [institutionsById[key] || null] is, for the dictionary built from
    the institutions. *)
Lemma institutionsById_lookup (institutions : list (Response Institution.t))
    (key : string) :
  let attached :=
    lookup_or_null
      (foldl (λ acc institution,
                assign acc (Institution.id (payload institution)) institution)
             empty_object institutions) key in
  (∀ institution, attached = Some (OfInstitution institution) →
     institution ∈ institutions ∧ Institution.id (payload institution) = key)
  ∧ ((∃ institution, institution ∈ institutions
                     ∧ Institution.id (payload institution) = key)
     → ∃ institution, attached = Some (OfInstitution institution))
  ∧ ((∀ institution, institution ∈ institutions →
        Institution.id (payload institution) ≠ key
        ∧ Institution.id (payload institution) ≠ "__proto__") →
     (key = "__proto__" → attached = Some OfObjectPrototype)
     ∧ (key ∈ object_prototype_functions → attached = Some (OfFunction key))
     ∧ (key ≠ "__proto__" → key ∉ object_prototype_functions → attached = None)).
Proof.
  destruct (institutionsById_own institutions empty_object key) as [Hown Hown_none].
  destruct (institutionsById_prototype institutions empty_object) as [Hproto Hproto_none].
  cbv zeta in *. unfold lookup_or_null.
  set (institutionsById := foldl _ empty_object institutions) in *.
  destruct (own institutionsById !! key) as [found|] eqn:Hfound.
  - destruct (Hown found eq_refl) as [Hfrom|Hempty];
      [|simpl in Hempty; now rewrite lookup_empty in Hempty].
    split; [|split].
    + intros institution H. simpl in H. now injection H as <-.
    + intros _. now exists found.
    + intros Hnone. destruct Hfrom as [Hin Hkey]. now destruct (Hnone found Hin).
  - destruct (String.eqb_spec key "__proto__") as [Hkey|Hkey].
    + destruct (prototype institutionsById) as [parent|] eqn:Hparent; simpl.
      * destruct (Hproto parent eq_refl) as [Hfrom|Hempty]; [|discriminate].
        split; [|split].
        -- intros institution H. injection H as <-. now rewrite Hkey.
        -- intros _. now exists parent.
        -- intros Hnone. destruct Hfrom as [Hin Hid]. now destruct (Hnone parent Hin).
      * split; [discriminate|split].
        -- intros (institution & Hin & Hid). exfalso.
           destruct Hproto_none as [Hnone _]. destruct (Hnone eq_refl) as [_ Hall].
           apply (Hall institution Hin). now rewrite Hid.
        -- intros _. split; [reflexivity|]. split; [|contradiction].
           rewrite Hkey. intros Hin. exfalso. revert Hin. clear. intros Hin.
           repeat (apply elem_of_cons in Hin as [Hin|Hin]; [discriminate|]).
           now apply elem_of_nil in Hin.
    + assert (∀ institution, institution ∈ institutions →
                Institution.id (payload institution) ≠ key) as Hother.
      { destruct Hown_none as [Hnone _]. destruct (Hnone eq_refl) as [_ Hall].
        intros institution Hin. now destruct (Hall institution Hin). }
      split; [|split].
      * intros institution H. exfalso. apply or_null_Some in H.
        destruct (prototype institutionsById) as [parent|];
          [destruct (institution_property parent key) as [value|] eqn:Hvalue|].
        -- injection H as ->. now apply institution_property_field in Hvalue.
        -- now apply inherited_function in H.
        -- now apply inherited_function in H.
      * intros (institution & Hin & Hid). now destruct (Hother institution Hin).
      * intros Hnone.
        assert (prototype institutionsById = None) as ->.
        { apply Hproto_none. split; [reflexivity|].
          intros institution Hin. now destruct (Hnone institution Hin). }
        split; [contradiction|]. unfold inherited. split.
        -- intros Hin. now rewrite (bool_decide_eq_true_2 _ Hin).
        -- intros _ Hnotin. now rewrite (bool_decide_eq_false_2 _ Hnotin).
Qed.

(** X17. [extendAccountsAboutInstitutions] returns the accounts in their
    order, each with its fields as they were and with a value added as its
    institution. The value is one of the given institutions exactly when one
    of them has the account's [institution_id] as its identifier, and it is
    then one with that identifier. With no such institution, and none whose
    identifier is [__proto__], the value is what the empty object inherits
    under that name: [Object.prototype] for [__proto__], a function of
    [Object.prototype] for the name of one ([constructor], [toString], ...),
    and null for any other name. *)
Theorem extendAccountsAboutInstitutions_joins {World : Type}
    (accounts : list Account.t) (institutions : list (Response Institution.t))
    (σ : State World) :
  ∃ extended,
    NordigenService.extendAccountsAboutInstitutions accounts institutions σ
    = (Return extended, σ)
    ∧ List.length extended = List.length accounts
    ∧ ∀ i account, accounts !! i = Some account →
        ∃ joined, extended !! i = Some joined
          ∧ Account.id joined = Account.id account
          ∧ Account.institution_id joined = Account.institution_id account
          ∧ Account.iban joined = Account.iban account
          ∧ Account.name joined = Account.name account
          ∧ Account.product joined = Account.product account
          ∧ (∀ institution,
               Account.institution joined = Some (OfInstitution institution) →
               institution ∈ institutions
               ∧ Institution.id (payload institution) = Account.institution_id account)
          ∧ ((∃ institution, institution ∈ institutions
                ∧ Institution.id (payload institution) = Account.institution_id account)
             → ∃ institution, Account.institution joined = Some (OfInstitution institution))
          ∧ ((∀ institution, institution ∈ institutions →
                Institution.id (payload institution) ≠ Account.institution_id account
                ∧ Institution.id (payload institution) ≠ "__proto__") →
             (Account.institution_id account = "__proto__" →
              Account.institution joined = Some OfObjectPrototype)
             ∧ (Account.institution_id account ∈ object_prototype_functions →
                Account.institution joined
                = Some (OfFunction (Account.institution_id account)))
             ∧ (Account.institution_id account ≠ "__proto__" →
                Account.institution_id account ∉ object_prototype_functions →
                Account.institution joined = None)).
Proof.
  eexists. split; [reflexivity|]. split; [apply length_map|].
  intros i account Hi. rewrite list_lookup_fmap, Hi. simpl.
  eexists. split; [reflexivity|]. simpl. repeat (split; [reflexivity|]).
  apply institutionsById_lookup.
Qed.

(** An account whose [institution_id] is "constructor", with no institution
    of that identifier, gets the function the empty object inherits. *)
Lemma extendAccountsAboutInstitutions_inherited_example :
  NordigenService.extendAccountsAboutInstitutions
    [{| Account.id := Some "A1"; Account.institution_id := "constructor";
        Account.institution := None; Account.iban := None;
        Account.name := None; Account.product := None |}]
    [ok {| Institution.id := "BANK"; Institution.name := Some "Bank" |}]
    example_start
  = (Return [{| Account.id := Some "A1"; Account.institution_id := "constructor";
                Account.institution := Some (OfFunction "constructor");
                Account.iban := None; Account.name := None;
                Account.product := None |}],
     example_start).
Proof. reflexivity. Qed.

Section AccountRequests.
Context {World : Type}.
Variable nordigenClient : Client World.
Variable BankFactory : string → Bank.t.

#[local] Abbreviation getDetailedAccount :=
  (NordigenService.getDetailedAccount nordigenClient).
#[local] Abbreviation getInstitution := (NordigenService.getInstitution nordigenClient).

(** X18. [getDetailedAccount] sends the details request and then the
    metadata request, whatever the answers are. A status code of the
    taxonomy on the details answer is the error, also when the metadata
    answer carries one; else one on the metadata answer is. With neither, the
    account has the identifier and the institution of the metadata, the name
    and the product of the details, and the IBAN of the details, or the one of
    the metadata when the details have none. *)
Theorem getDetailedAccount_requests (accountId : string) (σ : State World)
    (detailed : Response Details) (metadata : Response Metadata) (w1 w2 : World) :
  getDetails nordigenClient accountId (token σ) (world σ) = (detailed, w1) →
  getMetadata nordigenClient accountId (token σ) w1 = (metadata, w2) →
  ∃ result,
    getDetailedAccount accountId σ = (Return result, Build_State (token σ) w2)
    ∧ (∀ e, handleNordigenError detailed = Throw e → result = Throw e)
    ∧ (∀ e, handleNordigenError detailed = Return tt →
            handleNordigenError metadata = Throw e → result = Throw e)
    ∧ (handleNordigenError detailed = Return tt →
       handleNordigenError metadata = Return tt →
       ∃ merged, result = Return merged
         ∧ Account.id merged = metadata_id (payload metadata)
         ∧ Account.institution_id merged = metadata_institution_id (payload metadata)
         ∧ Account.institution merged = None
         ∧ Account.name merged = account (payload detailed) ≫= details_name
         ∧ Account.product merged = account (payload detailed) ≫= details_product
         ∧ Account.iban merged
           = match account (payload detailed) ≫= details_iban with
             | Some iban => Some iban
             | None => metadata_iban (payload metadata)
             end).
Proof.
  intros Hdetails Hmetadata. unfold NordigenService.getDetailedAccount.
  unfold mbind at 1, NordigenService.M_bind, NordigenService.call. rewrite Hdetails.
  unfold mbind at 1, NordigenService.M_bind. simpl. rewrite Hmetadata.
  unfold mret, NordigenService.M_ret. eexists. split; [reflexivity|].
  unfold mbind, outcome_bind. split; [|split].
  - intros e He. now rewrite He.
  - intros e Hd He. now rewrite Hd, He.
  - intros Hd Hm. rewrite Hd, Hm. eexists. split; [reflexivity|]. repeat split.
Qed.

(** Joining results keeps their number. *)
Lemma outcome_mapM_length {E A B : Type} (f : A → outcome E B) (l : list A)
    (k : list B) :
  mapM f l = Return k → List.length k = List.length l.
Proof.
  revert k. induction l as [|x l IH]; intros k; simpl.
  - intros [= <-]. reflexivity.
  - unfold mbind, mret, outcome_bind, outcome_ret.
    destruct (f x) as [y|e]; [|discriminate].
    destruct (mapM f l) as [k'|e]; [|discriminate].
    intros [= <-]. simpl. f_equal. now apply IH.
Qed.

Lemma service_mapM_length {A B : Type} (f : A → NordigenService.M B) (l : list A)
    (k : list B) (σ σ' : State World) :
  @mapM (@NordigenService.M World) (@NordigenService.M_bind World)
    (@NordigenService.M_ret World) A B f l σ = (Return k, σ') →
  List.length k = List.length l.
Proof.
  revert k σ σ'. induction l as [|x l IH]; intros k σ σ'; simpl.
  - intros [= <- _]. reflexivity.
  - unfold mbind, mret, NordigenService.M_bind, NordigenService.M_ret.
    destruct (f x σ) as [[y|e] σ1]; [|discriminate].
    destruct (mapM f l σ1) as [[k'|e] σ2] eqn:Hrest; [|discriminate].
    intros [= <- _]. simpl. f_equal. exact (IH _ _ _ Hrest).
Qed.

Lemma promise_all_length {A : Type} (ps : list (NordigenService.async A))
    (l : list A) (σ σ' : State World) :
  NordigenService.promise_all ps σ = (Return l, σ') → List.length l = List.length ps.
Proof.
  unfold NordigenService.promise_all.
  unfold mbind at 1, NordigenService.M_bind.
  destruct (@mapM (@NordigenService.M World) _ _ _ _ _ ps σ) as [[rs|e] σ1] eqn:Hrs;
    [|discriminate].
  unfold NordigenService.lift. intros [= Hl _].
  apply outcome_mapM_length in Hl. apply service_mapM_length in Hrs. congruence.
Qed.

(** X19. When [getRequisitionWithAccounts] returns, it returns the linked
    requisition as [getLinkedRequisition] gave it, and as many normalized
    accounts as the requisition lists account identifiers. *)
Theorem getRequisitionWithAccounts_result (requisitionId : string) (σ σ' : State World)
    (result : RequisitionWithAccounts) :
  NordigenService.getRequisitionWithAccounts nordigenClient BankFactory requisitionId σ
  = (Return result, σ') →
  (∃ σ1, NordigenService.getLinkedRequisition nordigenClient requisitionId σ
         = (Return (linked_requisition result), σ1))
  ∧ Requisition.status (payload (linked_requisition result)) = "LN"
  ∧ List.length (normalized_accounts result)
    = List.length (Requisition.accounts (payload (linked_requisition result))).
Proof.
  unfold NordigenService.getRequisitionWithAccounts.
  unfold mbind at 1, NordigenService.M_bind.
  destruct (NordigenService.getLinkedRequisition nordigenClient requisitionId σ)
    as [[requisition|e] σ1] eqn:Hlinked; [|discriminate].
  unfold mbind at 1, NordigenService.M_bind.
  destruct (NordigenService.promise_all _ σ1) as [[detailed|e] σ2] eqn:Hdetailed;
    [|discriminate].
  unfold mbind at 1, NordigenService.M_bind.
  destruct (NordigenService.promise_all _ σ2) as [[institutions|e] σ3]; [|discriminate].
  unfold mbind at 1, NordigenService.M_bind.
  unfold NordigenService.extendAccountsAboutInstitutions at 1.
  unfold mret at 1, NordigenService.M_ret at 1.
  unfold mbind at 1, NordigenService.M_bind, NordigenService.lift.
  destruct (lift_js _) as [normalized|e] eqn:Hnormalized; [|discriminate].
  unfold mret, NordigenService.M_ret. intros [= <- _]. simpl.
  split; [eauto|]. split.
  - unfold NordigenService.getLinkedRequisition in Hlinked.
    unfold mbind at 1, NordigenService.M_bind in Hlinked.
    destruct (NordigenService.getRequisition nordigenClient requisitionId σ)
      as [[fetched|e] σ0]; [|discriminate].
    destruct (negb _) eqn:Hstatus; [discriminate|].
    injection Hlinked as <- _. apply negb_false_iff in Hstatus.
    now apply String.eqb_eq in Hstatus.
  - unfold lift_js in Hnormalized.
    destruct (mapM _ _) as [normalized'|e] eqn:Hmap; [|discriminate].
    injection Hnormalized as <-.
    apply outcome_mapM_length in Hmap. rewrite Hmap, length_map.
    apply promise_all_length in Hdetailed. now rewrite Hdetailed, length_map.
Qed.
End AccountRequests.

Lemma getDetailedAccount_requests_example :
  ∃ result,
    NordigenService.getDetailedAccount example_client "A1" example_start
    = (Return result, Build_State None 0%nat)
    ∧ (∀ e, handleNordigenError (fst (getDetails example_client "A1" None 0%nat))
            = Throw e → result = Throw e)
    ∧ (∀ e, handleNordigenError (fst (getDetails example_client "A1" None 0%nat))
            = Return tt →
            handleNordigenError (fst (getMetadata example_client "A1" None 0%nat))
            = Throw e → result = Throw e)
    ∧ (handleNordigenError (fst (getDetails example_client "A1" None 0%nat)) = Return tt →
       handleNordigenError (fst (getMetadata example_client "A1" None 0%nat)) = Return tt →
       ∃ merged, result = Return merged
         ∧ Account.id merged = Some "A1"
         ∧ Account.institution_id merged = "SANDBOXFINANCE_SFIN0000"
         ∧ Account.institution merged = None
         ∧ Account.name merged = Some "Main"
         ∧ Account.product merged = Some "Giro"
         ∧ Account.iban merged = Some "DE02100100100006820101").
Proof.
  apply (getDetailedAccount_requests example_client "A1" example_start
           (fst (getDetails example_client "A1" None 0%nat))
           (fst (getMetadata example_client "A1" None 0%nat)) 0%nat 0%nat).
  - reflexivity.
  - reflexivity.
Defined.

Lemma getRequisitionWithAccounts_result_example :
  ∃ result σ',
    NordigenService.getRequisitionWithAccounts example_client (λ _, example_bank)
      "R1" example_start = (Return result, σ')
    ∧ Requisition.status (payload (linked_requisition result)) = "LN"
    ∧ List.length (normalized_accounts result) = 2%nat.
Proof.
  do 2 eexists. split; [vm_compute; reflexivity|].
  eapply (getRequisitionWithAccounts_result example_client (λ _, example_bank)
            "R1" example_start).
  vm_compute. reflexivity.
Defined.

Lemma set_add_spec (ids set : list string) :
  NoDup set →
  NoDup (foldl set_add set ids)
  ∧ ∀ x, x ∈ foldl set_add set ids ↔ x ∈ set ∨ x ∈ ids.
Proof.
  revert set. induction ids as [|id ids IH]; intros set Hset; simpl.
  - split; [exact Hset|]. intros x. rewrite elem_of_nil. tauto.
  - unfold set_add at 2 4. destruct (bool_decide (id ∈ set)) eqn:Hid.
    + apply bool_decide_eq_true in Hid. destruct (IH set Hset) as [Hnodup Hin].
      split; [exact Hnodup|]. intros x. rewrite Hin, elem_of_cons.
      split; [tauto|]. intros [H|[->|H]]; tauto.
    + apply bool_decide_eq_false in Hid.
      destruct (IH (set ++ [id])%list) as [Hnodup Hin].
      { apply NoDup_app. split; [exact Hset|]. split; [|apply NoDup_singleton].
        intros x Hx Hx'. apply list_elem_of_singleton in Hx' as ->. contradiction. }
      split; [exact Hnodup|]. intros x.
      rewrite Hin, elem_of_app, list_elem_of_singleton, elem_of_cons. tauto.
Qed.

Section InstitutionRequests.
Context {World : Type}.
Variable nordigenClient : Client World.
Variable BankFactory : string → Bank.t.

#[local] Abbreviation getInstitution := (NordigenService.getInstitution nordigenClient).
#[local] Abbreviation getDetailedAccount :=
  (NordigenService.getDetailedAccount nordigenClient).

(** The worlds the requests for the institutions of [ids] lead through. *)
#[local] Abbreviation after_institution_requests σ ids :=
  (Build_State (token σ)
     (foldl (λ w id, snd (getInstitutionById nordigenClient id (token σ) w))
            (world σ) ids)).

(** Calling [getInstitution] sends its request, whatever the answer is. *)
Lemma getInstitution_request (institutionId : string) (σ : State World) :
  ∃ r, getInstitution institutionId σ
       = (Return r,
          Build_State (token σ)
            (snd (getInstitutionById nordigenClient institutionId (token σ) (world σ)))).
Proof.
  unfold NordigenService.getInstitution, mbind, NordigenService.M_bind,
    NordigenService.call, mret, NordigenService.M_ret.
  destruct (getInstitutionById nordigenClient institutionId (token σ) (world σ))
    as [response w].
  simpl. eauto.
Qed.

Lemma getInstitution_requests (ids : list string) (σ : State World) :
  ∃ rs, @mapM (@NordigenService.M World) (@NordigenService.M_bind World)
          (@NordigenService.M_ret World)
          (@NordigenService.async World (Response Institution.t)) _
          (λ p, p) (map getInstitution ids) σ
        = (Return rs, after_institution_requests σ ids).
Proof.
  revert σ. induction ids as [|id ids IH]; intros σ.
  - exists []. now destruct σ.
  - destruct (getInstitution_request id σ) as [r Hr].
    destruct (IH (Build_State (token σ)
                    (snd (getInstitutionById nordigenClient id (token σ) (world σ)))))
      as [rs Hrs].
    exists (r :: rs). simpl.
    unfold mbind at 1, NordigenService.M_bind at 1. rewrite Hr.
    unfold mbind at 1, NordigenService.M_bind at 1.
    simpl in Hrs. now rewrite Hrs.
Qed.

(** [Promise.all] over the calls of [getInstitution] has sent one request for
    each identifier, in their order, whether it then returns or throws. *)
Lemma promise_all_getInstitution (ids : list string) (σ : State World) :
  snd (NordigenService.promise_all (map getInstitution ids) σ)
  = after_institution_requests σ ids.
Proof.
  unfold NordigenService.promise_all.
  destruct (getInstitution_requests ids σ) as [rs Hrs].
  unfold mbind at 1, NordigenService.M_bind at 1. now rewrite Hrs.
Qed.

(** X20. Once the requisition is linked and its accounts are fetched,
    [getRequisitionWithAccounts] sends one request for each institution the
    accounts belong to, however many accounts share it, and nothing else:
    whatever the answers are and whether it returns or throws, the world it
    leaves is the one after the requests for a duplicate-free list of
    exactly the accounts' institution identifiers, and the token is as it
    was. *)
Theorem institution_ids_once (requisitionId : string) (σ σ1 σ2 : State World)
    (requisition : Response Requisition.t) (detailedAccounts : list Account.t) :
  NordigenService.getLinkedRequisition nordigenClient requisitionId σ
  = (Return requisition, σ1) →
  NordigenService.promise_all
    (map getDetailedAccount (Requisition.accounts (payload requisition))) σ1
  = (Return detailedAccounts, σ2) →
  ∃ institutionIds,
    NoDup institutionIds
    ∧ (∀ id, id ∈ institutionIds ↔ id ∈ map Account.institution_id detailedAccounts)
    ∧ (List.length institutionIds ≤ List.length detailedAccounts)%nat
    ∧ snd (NordigenService.getRequisitionWithAccounts nordigenClient BankFactory
             requisitionId σ)
      = Build_State (token σ2)
          (foldl (λ w id, snd (getInstitutionById nordigenClient id (token σ2) w))
                 (world σ2) institutionIds).
Proof.
  intros Hlinked Hdetailed.
  exists (foldl set_add [] (map Account.institution_id detailedAccounts)).
  destruct (set_add_spec (map Account.institution_id detailedAccounts) [] (NoDup_nil_2))
    as [Hnodup Hin].
  split; [exact Hnodup|]. split; [|split].
  - intros id. rewrite Hin, elem_of_nil. tauto.
  - rewrite <- (length_map Account.institution_id detailedAccounts).
    apply submseteq_length, NoDup_submseteq; [exact Hnodup|].
    intros id Hid. apply Hin in Hid as [Hid|Hid]; [now apply elem_of_nil in Hid | exact Hid].
  - rewrite <- promise_all_getInstitution.
    unfold NordigenService.getRequisitionWithAccounts.
    unfold mbind at 1, NordigenService.M_bind at 1. rewrite Hlinked.
    unfold mbind at 1, NordigenService.M_bind at 1. rewrite Hdetailed.
    unfold mbind at 1, NordigenService.M_bind at 1.
    destruct (NordigenService.promise_all (map getInstitution _) σ2)
      as [[institutions|e] σ3]; [|reflexivity].
    unfold mbind at 1, NordigenService.M_bind at 1.
    unfold NordigenService.extendAccountsAboutInstitutions at 1.
    unfold mret at 1, NordigenService.M_ret at 1.
    unfold mbind at 1, NordigenService.M_bind at 1, NordigenService.lift.
    now destruct (lift_js _).
Qed.
End InstitutionRequests.

(** Two accounts of one institution: after the token request, one request
    for the institution. *)
Lemma institution_ids_once_example :
  ∃ institutionIds,
    NoDup institutionIds
    ∧ (∀ id, id ∈ institutionIds
             ↔ id ∈ ["SANDBOXFINANCE_SFIN0000"; "SANDBOXFINANCE_SFIN0000"])
    ∧ (List.length institutionIds ≤ 2)%nat
    ∧ snd (NordigenService.getRequisitionWithAccounts counting_client (λ _, example_bank)
             "R1" example_start)
      = Build_State (Some "token-0")
          (foldl (λ w id, snd (getInstitutionById counting_client id (Some "token-0") w))
                 1%nat institutionIds)
    ∧ world (snd (NordigenService.getRequisitionWithAccounts counting_client
                    (λ _, example_bank) "R1" example_start)) = 2%nat.
Proof.
  edestruct (institution_ids_once counting_client (λ _, example_bank) "R1" example_start)
    as (institutionIds & Hnodup & Hin & Hlength & Hworld).
  - vm_compute. reflexivity.
  - vm_compute. reflexivity.
  - exists institutionIds.
    split; [exact Hnodup|]. split; [exact Hin|]. split; [exact Hlength|].
    split; [exact Hworld | reflexivity].
Defined.

(** ** More on concurrent calls of [setToken] *)

Section TokenSchedules.
Context {World : Type}.
Variable nordigenClient : Client World.

#[local] Abbreviation turn := (TokenCalls.turn nordigenClient).
#[local] Abbreviation run := (TokenCalls.run nordigenClient).
#[local] Abbreviation schedule_turn := (TokenCalls.schedule_turn nordigenClient).

Lemma not_yet_run_app (l1 l2 : list TokenCalls.call_state) :
  not_yet_run (l1 ++ l2) = (not_yet_run l1 + not_yet_run l2)%nat.
Proof. unfold not_yet_run. now rewrite List.filter_app, length_app. Qed.

Lemma not_yet_run_replicate (n : nat) :
  not_yet_run (replicate n TokenCalls.Called) = n.
Proof. induction n as [|n IH]; [reflexivity|]. unfold not_yet_run in *. simpl. now rewrite IH. Qed.

(** A turn fetches only for a call that had not run, which has run
    afterwards. *)
Lemma schedule_turn_budget (s : TokenCalls.system) (i : nat) :
  (TokenCalls.fetches (schedule_turn s i) + not_yet_run (TokenCalls.calls (schedule_turn s i))
   ≤ TokenCalls.fetches s + not_yet_run (TokenCalls.calls s))%nat.
Proof.
  unfold TokenCalls.schedule_turn.
  destruct (TokenCalls.calls s !! i) as [c|] eqn:Hi; [|lia].
  pose proof (lookup_lt_Some _ _ _ Hi) as Hlt.
  pose proof (take_drop_middle _ _ _ Hi) as Hsplit.
  destruct (TokenCalls.turn _ _ c) as [[σ c'] fetched] eqn:Hturn. simpl.
  rewrite insert_take_drop by exact Hlt.
  rewrite <- Hsplit at 3. rewrite !not_yet_run_app.
  change (not_yet_run (c' :: drop (S i) (TokenCalls.calls s)))
    with (not_yet_run ([c'] ++ drop (S i) (TokenCalls.calls s))).
  change (not_yet_run (c :: drop (S i) (TokenCalls.calls s)))
    with (not_yet_run ([c] ++ drop (S i) (TokenCalls.calls s))).
  rewrite !not_yet_run_app.
  assert ((if fetched then 1 else 0) + not_yet_run [c'] ≤ not_yet_run [c])%nat as Hstep.
  { unfold TokenCalls.turn in Hturn. destruct c as [|tokenData|result].
    - destruct (negb _).
      + destruct (generateToken _ _). injection Hturn as _ <- <-. unfold not_yet_run. simpl. lia.
      + injection Hturn as _ <- <-. unfold not_yet_run. simpl. lia.
    - destruct (handleNordigenError tokenData); injection Hturn as _ <- <-;
        unfold not_yet_run; simpl; lia.
    - injection Hturn as _ <- <-. unfold not_yet_run. simpl. lia. }
  destruct fetched; lia.
Qed.

(** X21. Whatever the schedule, [n] calls of [setToken] fetch at most [n]
    tokens: a call asks for a token in its first turn or not at all. *)
Theorem setToken_fetches_at_most_once_each (n : nat) (σ : State World)
    (schedule : list nat) :
  (TokenCalls.fetches (run schedule (TokenCalls.started n σ)) ≤ n)%nat.
Proof.
  assert (∀ s, TokenCalls.fetches (run schedule s)
               + not_yet_run (TokenCalls.calls (run schedule s))
               ≤ TokenCalls.fetches s + not_yet_run (TokenCalls.calls s))%nat as Hbudget.
  { induction schedule as [|i schedule IH]; intros s; [simpl; lia|].
    unfold TokenCalls.run in *. simpl.
    etransitivity; [apply IH | apply schedule_turn_budget]. }
  specialize (Hbudget (TokenCalls.started n σ)). simpl in Hbudget.
  rewrite not_yet_run_replicate in Hbudget. lia.
Qed.

(** With a token cached and no call waiting for an answer, nothing is
    fetched and the token stays. *)
Lemma run_cached (schedule : list nat) (s : TokenCalls.system) :
  truthy (token (TokenCalls.process s)) = true →
  none_awaiting (TokenCalls.calls s) →
  TokenCalls.fetches (run schedule s) = TokenCalls.fetches s
  ∧ TokenCalls.process (run schedule s) = TokenCalls.process s.
Proof.
  revert s. induction schedule as [|i schedule IH]; intros s Htoken Hcalls;
    [split; reflexivity|].
  unfold TokenCalls.run in *. simpl.
  assert (TokenCalls.fetches (schedule_turn s i) = TokenCalls.fetches s
          ∧ TokenCalls.process (schedule_turn s i) = TokenCalls.process s
          ∧ none_awaiting (TokenCalls.calls (schedule_turn s i))) as (Hf & Hp & Hc).
  { unfold TokenCalls.schedule_turn.
    destruct (TokenCalls.calls s !! i) as [c|] eqn:Hi; [|repeat split; exact Hcalls].
    pose proof (proj1 (Forall_lookup _ _) Hcalls i c Hi) as Hc.
    unfold TokenCalls.turn. destruct c as [|tokenData|result]; [|contradiction|].
    - rewrite Htoken. simpl. repeat split. now apply Forall_insert.
    - simpl. repeat split. now apply Forall_insert. }
  destruct (IH (schedule_turn s i)) as [IHf IHp]; [now rewrite Hp | exact Hc|].
  split; congruence.
Qed.

(** X22. When the first call of [setToken] has been answered with a token
    before any other call runs, the other calls, in any order, fetch
    nothing: one token is fetched in all, and it stays cached. *)
Theorem setToken_sequential_single_fetch (n : nat) (σ : State World)
    (tokenData : Response TokenData) (w : World) (rest : list nat) :
  truthy (token σ) = false →
  generateToken nordigenClient (world σ) = (tokenData, w) →
  handleNordigenError tokenData = Return tt →
  truthy (access (payload tokenData)) = true →
  TokenCalls.fetches (run (0 :: 0 :: rest)%nat (TokenCalls.started (S n) σ)) = 1%nat
  ∧ TokenCalls.process (run (0 :: 0 :: rest)%nat (TokenCalls.started (S n) σ))
    = Build_State (access (payload tokenData)) w.
Proof.
  intros Htoken Hfetch Hok Haccess.
  unfold TokenCalls.run. simpl foldl.
  assert (schedule_turn (TokenCalls.started (S n) σ) 0
          = {| TokenCalls.process := Build_State (token σ) w;
               TokenCalls.calls :=
                 TokenCalls.Awaiting tokenData :: replicate n TokenCalls.Called;
               TokenCalls.fetches := 1 |}) as ->.
  { unfold TokenCalls.schedule_turn. simpl. rewrite Htoken. simpl. now rewrite Hfetch. }
  assert (schedule_turn
            {| TokenCalls.process := Build_State (token σ) w;
               TokenCalls.calls :=
                 TokenCalls.Awaiting tokenData :: replicate n TokenCalls.Called;
               TokenCalls.fetches := 1 |} 0
          = {| TokenCalls.process := Build_State (access (payload tokenData)) w;
               TokenCalls.calls :=
                 TokenCalls.Settled (Return tt) :: replicate n TokenCalls.Called;
               TokenCalls.fetches := 1 |}) as ->.
  { unfold TokenCalls.schedule_turn. simpl. now rewrite Hok. }
  apply (run_cached rest
           {| TokenCalls.process := Build_State (access (payload tokenData)) w;
              TokenCalls.calls :=
                TokenCalls.Settled (Return tt) :: replicate n TokenCalls.Called;
              TokenCalls.fetches := 1 |}).
  - exact Haccess.
  - constructor; [exact I|]. apply Forall_replicate. exact I.
Qed.
End TokenSchedules.

Lemma setToken_sequential_single_fetch_example :
  TokenCalls.fetches
    (TokenCalls.run example_client (0 :: 0 :: [2; 1; 1; 2; 0])%nat
       (TokenCalls.started 3 example_start)) = 1%nat
  ∧ TokenCalls.process
      (TokenCalls.run example_client (0 :: 0 :: [2; 1; 1; 2; 0])%nat
         (TokenCalls.started 3 example_start))
    = Build_State (Some "token-0") 1%nat.
Proof.
  apply (setToken_sequential_single_fetch example_client 2 example_start
           (ok {| access := Some "token-0" |}) 1%nat [2; 1; 1; 2; 0]%nat).
  - reflexivity.
  - reflexivity.
  - reflexivity.
  - reflexivity.
Defined.

(** ** Results of the operations *)

Section OperationResults.
Context {World : Type}.
Variable nordigenClient : Client World.
Variable BankFactory : string → Bank.t.
Variable uuid_v4 : World → string * World.

(** X23. For a linked requisition that lists the account, when both answers
    come without a status code of the taxonomy and the adapter of the
    requisition's institution sorts and reconciles without throwing,
    [getTransactionsWithBalance] returns the balances as answered, the
    requisition's institution, the booked and the pending transactions each
    as the adapter sorted them, and the starting balance the adapter computed
    from the sorted booked transactions and the balances (no balances when
    the answer has none). *)
Theorem getTransactionsWithBalance_result
    (requisitionId accountId startDate endDate : string) (σ σ1 : State World)
    (requisition : Response Requisition.t)
    (answer : Response Transactions) (accountBalance : Response Balances)
    (w1 w2 : World) (sortedBooked sortedPending : list Transaction) (starting : number) :
  NordigenService.getLinkedRequisition nordigenClient requisitionId σ
  = (Return requisition, σ1) →
  accountId ∈ Requisition.accounts (payload requisition) →
  getAccountTransactions nordigenClient accountId startDate endDate (token σ1) (world σ1)
  = (answer, w1) →
  getAccountBalances nordigenClient accountId (token σ1) w1 = (accountBalance, w2) →
  handleNordigenError answer = Return tt →
  handleNordigenError accountBalance = Return tt →
  Bank.sortTransactions (BankFactory (Requisition.institution_id (payload requisition)))
    (transactions (payload answer) ≫= booked) = Return sortedBooked →
  Bank.sortTransactions (BankFactory (Requisition.institution_id (payload requisition)))
    (transactions (payload answer) ≫= pending) = Return sortedPending →
  Bank.calculateStartingBalance
    (BankFactory (Requisition.institution_id (payload requisition)))
    sortedBooked (default [] (balances (payload accountBalance))) = Return starting →
  NordigenService.getTransactionsWithBalance nordigenClient BankFactory
    requisitionId accountId startDate endDate σ
  = (Return {| account_balances := balances (payload accountBalance);
               balance_institutionId := Requisition.institution_id (payload requisition);
               startingBalance := starting;
               booked_transactions := sortedBooked;
               pending_transactions := sortedPending |},
     Build_State (token σ1) w2).
Proof.
  intros Hlinked Hin Htransactions Hbalances Hok1 Hok2 Hbooked Hpending Hstart.
  unfold NordigenService.getTransactionsWithBalance.
  unfold mbind at 1, NordigenService.M_bind. rewrite Hlinked.
  cbv beta zeta. rewrite (bool_decide_eq_true_2 _ Hin). cbn [negb]. cbv beta iota zeta.
  unfold NordigenService.reconcile, NordigenService.promise_all2,
    NordigenService.getTransactions, NordigenService.getBalances,
    NordigenService.call, NordigenService.lift.
  unfold mbind, mret, NordigenService.M_bind, NordigenService.M_ret, outcome_bind.
  rewrite Htransactions. simpl. rewrite Hbalances. simpl.
  unfold mbind in Hbooked, Hpending.
  rewrite Hok1, Hok2. simpl. rewrite Hbooked. simpl. rewrite Hpending. simpl.
  now rewrite Hstart.
Qed.

(** X24. With a token in place, [createRequisition] draws a reference
    identifier, opens a session for the institution with that reference, the
    given validity and the redirect address made of the host followed by
    "/nordigen/link", and returns the link and the identifier of the answer;
    an answer with a status code of the taxonomy makes it throw. *)
Theorem createRequisition_result (institution host : string) (validDays : Z)
    (σ σ1 : State World) (reference : string) (w1 w2 : World)
    (answer : Response Session) :
  NordigenService.setToken nordigenClient σ = (Return tt, σ1) →
  uuid_v4 (world σ1) = (reference, w1) →
  initSession nordigenClient
    {| redirectUrl := host ++ "/nordigen/link";
       institutionId := institution;
       referenceId := reference;
       sessionAccessValidForDays := validDays |}
    (token σ1) w1 = (answer, w2) →
  NordigenService.createRequisition nordigenClient uuid_v4 institution validDays host σ
  = (match handleNordigenError answer with
     | Return _ => Return {| link := session_link (payload answer);
                             requisitionId := session_id (payload answer) |}
     | Throw e => Throw e
     end,
     Build_State (token σ1) w2).
Proof.
  intros Hset Huuid Hsession. unfold NordigenService.createRequisition.
  unfold mbind at 1, NordigenService.M_bind. rewrite Hset.
  unfold mbind at 1, NordigenService.M_bind. rewrite Huuid.
  unfold mbind at 1, NordigenService.M_bind, NordigenService.call. simpl.
  rewrite Hsession.
  unfold mbind, mret, NordigenService.M_bind, NordigenService.M_ret, NordigenService.lift.
  destruct (handleNordigenError answer) as [[]|e]; reflexivity.
Qed.
End OperationResults.

Lemma getTransactionsWithBalance_result_example :
  ∃ sortedBooked,
    NordigenService.getTransactionsWithBalance example_client (λ _, example_bank)
      "R1" "A1" "2024-01-01" "2024-04-01" example_start
    = (Return {| account_balances := Some [sample_balance "interimAvailable" "1000.00"];
                 balance_institutionId := "SANDBOXFINANCE_SFIN0000";
                 startingBalance := Num 100300;
                 booked_transactions := sortedBooked;
                 pending_transactions := [] |},
       Build_State (Some "token-0") 1%nat).
Proof.
  eexists.
  eapply (getTransactionsWithBalance_result example_client (λ _, example_bank)
            "R1" "A1" "2024-01-01" "2024-04-01" example_start
            (Build_State (Some "token-0") 1%nat) (ok (example_requisition "R1"))
            (fst (getAccountTransactions example_client "A1" "2024-01-01" "2024-04-01"
                    (Some "token-0") 1%nat))
            (fst (getAccountBalances example_client "A1" (Some "token-0") 1%nat))
            1%nat 1%nat).
  - reflexivity.
  - apply list_elem_of_here.
  - reflexivity.
  - reflexivity.
  - reflexivity.
  - reflexivity.
  - reflexivity.
  - reflexivity.
  - reflexivity.
Defined.

Lemma createRequisition_result_example :
  NordigenService.createRequisition example_client example_uuid
    "SANDBOXFINANCE_SFIN0000" 90 "https://budget.example" example_start
  = (Return {| link := Some "https://ob.example/start"; requisitionId := Some "R9" |},
     Build_State (Some "token-0") 1%nat).
Proof.
  apply (createRequisition_result example_client example_uuid
           "SANDBOXFINANCE_SFIN0000" "https://budget.example" 90 example_start
           (Build_State (Some "token-0") 1%nat) "ref-1" 1%nat 1%nat
           (ok {| session_link := Some "https://ob.example/start";
                  session_id := Some "R9" |})).
  - reflexivity.
  - reflexivity.
  - reflexivity.
Defined.

Lemma deleteRequisition_after_fetch_example :
  NordigenService.deleteRequisition example_client "R2" example_start
  = (Return (ok {| summary := Some "Requisition deleted"; detail := None |}),
     Build_State (Some "token-0") 1%nat).
Proof.
  apply (proj2 (deleteRequisition_after_fetch example_client "R2" example_start)
           (ok (example_requisition "R2")) (Build_State (Some "token-0") 1%nat)
           (ok {| summary := Some "Requisition deleted"; detail := None |}) 1%nat).
  - reflexivity.
  - reflexivity.
Defined.
